(** * msticpy.datamodel.pivot: the Pivot environment loader

    A shallow embedding of [src/msticpy/datamodel/pivot.py] and the
    properties of its provider registry and of its default query time.

    The Python objects that the module shares by reference (the [Pivot]
    object captured by the bound method [self._get_timespan], and the
    [_providers] dictionary returned by the [providers] property) live in
    an explicit heap; everything else is a value. *)

From stdpp Require Import base list strings numbers.

(** ** Values *)

(** [datetime]: a point in time, as a count of clock ticks. *)
Definition datetime := Z.

(** Heap addresses of the mutable objects. *)
Abbreviation loc := nat (only parsing).

Module TimeSpan.
(** Modelled from the spec: [msticpy.common.timespan.TimeSpan] is not part
    of the sources at hand; the spec describes it as an immutable
    (start, end) pair. *)
Record t : Type := new { start : datetime; end_ : datetime }.
End TimeSpan.

Module QueryTime.
(** Modelled from the spec: [msticpy.nbtools.nbwidgets.QueryTime] is not
    part of the sources at hand.  The spec derives a time span "either from
    an explicit value or from a rolling N units before now rule"; the two
    constructors are the two ways [pivot.py] calls [QueryTime(...)]:
    with [origin_time], [before], [after], [units], or with [timespan]. *)
Inductive t : Type :=
| of_origin (origin_time : datetime) (before after : Z) (units : string)
| of_timespan (timespan : TimeSpan.t).
End QueryTime.

(** [msticpy.data.QueryProvider]: only its [environment] attribute is read;
    [qp_id] stands for the identity of the instance. *)
Record QueryProvider : Type :=
  { environment : string; qp_id : nat }.

(** [msticpy.sectools.TILookup]: an instance supplied by the caller, or the
    one that [TILookup()] builds inside [_get_all_providers]. *)
Inductive TILookup : Type :=
| TILookup_instance (id : nat)
| TILookup_default.

(** The objects a namespace or a provider list may hold ([Any]). *)
Inductive PyObj : Type :=
| QP (q : QueryProvider)
| TI (t : TILookup)
| Other (id : nat).

Inductive PyType : Type := QueryProvider_type | TILookup_type.

Definition isinstance (o : PyObj) (ty : PyType) : bool :=
  match o, ty with
  | QP _, QueryProvider_type => true
  | TI _, TILookup_type => true
  | _, _ => false
  end.

(** ** Python dictionaries: insertion-ordered, one entry per key *)

Module Dict.
Definition t (V : Type) : Type := list (string * V).

Definition empty {V} : t V := [].

(** [d[k] = v]: an existing key keeps its place, a new key goes last. *)
Fixpoint setitem {V} (d : t V) (k : string) (v : V) : t V :=
  match d with
  | [] => [(k, v)]
  | (k', v') :: d' =>
      if String.eqb k' k then (k', v) :: d'
      else (k', v') :: setitem d' k v
  end.

(** [d.get(k)] *)
Fixpoint get {V} (d : t V) (k : string) : option V :=
  match d with
  | [] => None
  | (k', v') :: d' => if String.eqb k' k then Some v' else get d' k
  end.

(** [d.values()] *)
Definition values {V} (d : t V) : list V := map snd d.

Definition keys {V} (d : t V) : list string := map fst d.

(** [d.update(other)] *)
Definition update {V} (d other : t V) : t V :=
  fold_left (fun acc kv => setitem acc (fst kv) (snd kv)) other d.

(** [{key(x): x for x in xs if key(x) is defined}] *)
Definition comprehension {A V} (f : A -> option (string * V))
    (xs : list A) : t V :=
  fold_left
    (fun acc x =>
       match f x with
       | Some (k, v) => setitem acc k v
       | None => acc
       end)
    xs empty.

(** Truth value of a dictionary: non-empty. *)
Definition truthy {V} (d : t V) : bool :=
  match d with [] => false | _ :: _ => true end.
End Dict.

Definition Namespace : Type := Dict.t PyObj.

(** Truth value of an optional argument: [None] and empty containers are
    false. *)
Definition truthy_namespace (namespace : option Namespace) : bool :=
  match namespace with
  | Some ns => Dict.truthy ns
  | None => false
  end.

Definition truthy_providers (providers : option (list PyObj)) : bool :=
  match providers with
  | Some (_ :: _) => true
  | _ => false
  end.

(** ** The world: heap, clock and the calls made to collaborators *)

(** A callable handed to a collaborator: the bound method
    [self._get_timespan] keeps a reference to [self]. *)
Inductive Callable : Type :=
| bound_get_timespan (self : loc).

(** Calls that leave the module. *)
Inductive Event : Type :=
| add_data_queries_to_entities (prov : QueryProvider) (get_timespan : Callable)
| add_ioc_queries_to_entities (ti_lookup : option PyObj) (container : string)
| register_pivots (file_path : string) (container def_container : option string)
    (force_container : option bool) (namespace : option Namespace)
| TILookup_new
| QueryTime_display (qt : QueryTime.t).

Inductive Exn : Type :=
| ExternalError (ev : Event)
| AttributeError (name : string)
| HeapError.

Inductive Result (A : Type) : Type :=
| Ok (a : A)
| Raise (e : Exn).
Arguments Ok {A} a.
Arguments Raise {A} e.

Inductive Obj : Type :=
| DictObj (d : Dict.t PyObj)
| PivotObj (_query_time : option QueryTime.t) (_providers : option loc).

Record World : Type :=
  { heap : list Obj; clock : datetime; trace : list Event }.

(** What the module takes from code that is not at hand. *)
Record Externals : Type :=
  { (** length of one time unit of [QueryTime], by unit name *)
    unit_length : string -> Z;
    (** the [units] of a [QueryTime] built without a [units] argument *)
    default_units : string;
    (** [pkg_resources.resource_filename] *)
    resource_filename : string -> string -> string;
    (** whether a call to a registration helper raises *)
    raises : Event -> bool }.

(** ** State and exception monad *)

Definition M (A : Type) : Type := World -> World * Result A.

Definition ret {A} (a : A) : M A := fun w => (w, Ok a).

Definition raise {A} (e : Exn) : M A := fun w => (w, Raise e).

Definition bind {A B} (m : M A) (f : A -> M B) : M B :=
  fun w =>
    match m w with
    | (w', Ok a) => f a w'
    | (w', Raise e) => (w', Raise e)
    end.

Notation "x <-- m ;; k" := (bind m (fun x => k))
  (at level 100, m at next level, right associativity).
Notation "m ;;; k" := (bind m (fun _ => k))
  (at level 100, right associativity).

Fixpoint for_each {A} (f : A -> M unit) (xs : list A) : M unit :=
  match xs with
  | [] => ret tt
  | x :: xs' => f x ;;; for_each f xs'
  end.

Definition alloc (o : Obj) : M loc :=
  fun w =>
    ({| heap := heap w ++ [o]; clock := clock w; trace := trace w |},
     Ok (length (heap w))).

Definition load (l : loc) : M Obj :=
  fun w =>
    match heap w !! l with
    | Some o => (w, Ok o)
    | None => (w, Raise HeapError)
    end.

Definition store (l : loc) (o : Obj) : M unit :=
  fun w =>
    ({| heap := <[l := o]> (heap w); clock := clock w; trace := trace w |},
     Ok tt).

(** [datetime.utcnow()] *)
Definition utcnow : M datetime := fun w => (w, Ok (clock w)).

Definition emit (ev : Event) : M unit :=
  fun w =>
    ({| heap := heap w; clock := clock w; trace := trace w ++ [ev] |}, Ok tt).

(** Attribute and dictionary access through a reference. *)
Definition get_query_time (self : loc) : M (option QueryTime.t) :=
  o <-- load self ;;
  match o with
  | PivotObj qt _ => ret qt
  | DictObj _ => raise HeapError
  end.

Definition set_query_time (self : loc) (qt : QueryTime.t) : M unit :=
  o <-- load self ;;
  match o with
  | PivotObj _ p => store self (PivotObj (Some qt) p)
  | DictObj _ => raise HeapError
  end.

Definition get_providers (self : loc) : M loc :=
  o <-- load self ;;
  match o with
  | PivotObj _ (Some p) => ret p
  | PivotObj _ None => raise (AttributeError "_providers")
  | DictObj _ => raise HeapError
  end.

Definition set_providers (self : loc) (p : loc) : M unit :=
  o <-- load self ;;
  match o with
  | PivotObj qt _ => store self (PivotObj qt (Some p))
  | DictObj _ => raise HeapError
  end.

Definition dict_load (d : loc) : M (Dict.t PyObj) :=
  o <-- load d ;;
  match o with
  | DictObj m => ret m
  | PivotObj _ _ => raise HeapError
  end.

(** [d.update(other)] on the dictionary object at [d]. *)
Definition dict_update (d : loc) (other : Dict.t PyObj) : M unit :=
  m <-- dict_load d ;;
  store d (DictObj (Dict.update m other)).

(** [d[k] = v] on the dictionary object at [d]. *)
Definition dict_setitem (d : loc) (k : string) (v : PyObj) : M unit :=
  m <-- dict_load d ;;
  store d (DictObj (Dict.setitem m k v)).

Definition _DEF_PIVOT_REG_FILE : string := "resources/mp_pivot_reg.yaml".

(** [{prov.environment: prov for prov in objs
      if isinstance(prov, QueryProvider)}] *)
Definition qp_binding (prov : PyObj) : option (string * PyObj) :=
  match prov with
  | QP q => Some (environment q, prov)
  | _ => None
  end.

Definition query_provider_dict (objs : list PyObj) : Dict.t PyObj :=
  Dict.comprehension qp_binding objs.

(** [prov for prov in dict.values() if isinstance(prov, QueryProvider)] *)
Definition data_provs (vals : list PyObj) : list QueryProvider :=
  flat_map (fun prov => match prov with QP q => [q] | _ => [] end) vals.

Section WithExternals.
Variable X : Externals.

Open Scope Z_scope.

(** Modelled from the spec: the start of a [QueryTime] (the class is not
    part of the sources at hand).  A rolling window reaches [before] units
    back and [after] units forward from its origin; a window built from a
    time span has that span's start and end. *)
Definition QueryTime_start (qt : QueryTime.t) : datetime :=
  match qt with
  | QueryTime.of_origin o b _ u => o - b * unit_length X u
  | QueryTime.of_timespan ts => TimeSpan.start ts
  end.

(** Modelled from the spec: the end of a [QueryTime], see
    [QueryTime_start]. *)
Definition QueryTime_end (qt : QueryTime.t) : datetime :=
  match qt with
  | QueryTime.of_origin o _ a u => o + a * unit_length X u
  | QueryTime.of_timespan ts => TimeSpan.end_ ts
  end.

(** Modelled from the spec: the [units] attribute of a [QueryTime] is the
    [units] it was built with, or the default of the class. *)
Definition QueryTime_units (qt : QueryTime.t) : string :=
  match qt with
  | QueryTime.of_origin _ _ _ u => u
  | QueryTime.of_timespan _ => default_units X
  end.

Close Scope Z_scope.

(** A call to a registration helper: recorded, and it may raise. *)
Definition call (ev : Event) : M unit :=
  emit ev ;;;
  if raises X ev then raise (ExternalError ev) else ret tt.

(** *** class Pivot *)

(** [_set_default_query_time(self, units, before)] *)
Definition _set_default_query_time (self : loc) (units : string)
    (before : Z) : M unit :=
  now <-- utcnow ;;
  set_query_time self (QueryTime.of_origin now before 0 units).

(** [timespan.setter] *)
Definition timespan_setter (self : loc) (timespan : TimeSpan.t) : M unit :=
  set_query_time self (QueryTime.of_timespan timespan).

(** [start] property *)
Definition start (self : loc) : M datetime :=
  qt <-- get_query_time self ;;
  match qt with
  | Some q => ret (QueryTime_start q)
  | None => raise (AttributeError "start")
  end.

(** [end] property *)
Definition end_ (self : loc) : M datetime :=
  qt <-- get_query_time self ;;
  match qt with
  | Some q => ret (QueryTime_end q)
  | None => raise (AttributeError "end")
  end.

(** [timespan] property *)
Definition timespan (self : loc) : M TimeSpan.t :=
  s <-- start self ;;
  e <-- end_ self ;;
  ret (TimeSpan.new s e).

(** [_get_timespan(self)] *)
Definition _get_timespan (self : loc) : M TimeSpan.t :=
  s <-- start self ;;
  e <-- end_ self ;;
  ret (TimeSpan.new s e).

(** Calling a callable that was handed to a collaborator. *)
Definition call_callable (c : Callable) : M TimeSpan.t :=
  match c with
  | bound_get_timespan self => _get_timespan self
  end.

(** [_get_query_providers(self, namespace, providers)] *)
Definition _get_query_providers (self : loc) (namespace : option Namespace)
    (providers : option (list PyObj)) : M unit :=
  (if truthy_namespace namespace then
     d <-- get_providers self ;;
     dict_update d
       (query_provider_dict (Dict.values (default Dict.empty namespace)))
   else ret tt) ;;;
  (if truthy_providers providers then
     d <-- get_providers self ;;
     dict_update d (query_provider_dict (default [] providers))
   else ret tt).

(** [_get_provider_by_type(provider_type, namespace, providers)]:
    [ti_provs[0]] of the explicit list, else [ns_providers[-1]] of the
    namespace, else [None]. *)
Definition _get_provider_by_type (provider_type : PyType)
    (namespace : option Namespace) (providers : option (list PyObj))
    : option PyObj :=
  let ti_provs :=
    if truthy_providers providers then
      List.filter (fun prov => isinstance prov provider_type)
        (default [] providers)
    else [] in
  match ti_provs with
  | prov :: _ => Some prov
  | [] =>
      if truthy_namespace namespace then
        let ns_providers :=
          List.filter (fun prov => isinstance prov provider_type)
            (Dict.values (default Dict.empty namespace)) in
        match ns_providers with
        | _ :: _ => list.last ns_providers
        | [] => None
        end
      else None
  end.

(** [TILookup()] *)
Definition TILookup_ctor : M PyObj :=
  emit TILookup_new ;;; ret (TI TILookup_default).

(** [_get_all_providers(self, namespace, providers)].  The instance found
    is the left operand of [or]: an instance of [TILookup] counts as true
    (the class, which is not part of the sources at hand, is taken not to
    define a truth value of its own), so [TILookup()] is called only when
    nothing was found. *)
Definition _get_all_providers (self : loc) (namespace : option Namespace)
    (providers : option (list PyObj)) : M unit :=
  _get_query_providers self namespace providers ;;;
  ti <-- match _get_provider_by_type TILookup_type namespace providers with
         | Some p => ret p
         | None => TILookup_ctor
         end ;;
  d <-- get_providers self ;;
  dict_setitem d "TILookup" ti.

(** [_get_def_pivot_reg()] *)
Definition _get_def_pivot_reg : M string :=
  ret (resource_filename X "msticpy" _DEF_PIVOT_REG_FILE).

(** [providers] property: the dictionary object itself *)
Definition providers (self : loc) : M loc := get_providers self.

(** [get_provider(self, name)] *)
Definition get_provider (self : loc) (name : string) : M (option PyObj) :=
  d <-- get_providers self ;;
  m <-- dict_load d ;;
  ret (Dict.get m name).

(** [__init__(self, namespace, providers, timespan)] *)
Definition __init__ (self : loc) (namespace : option Namespace)
    (providers : option (list PyObj)) (timespan : option TimeSpan.t)
    : M unit :=
  match timespan with
  | Some ts => timespan_setter self ts
  | None => _set_default_query_time self "day" 1
  end ;;;
  d <-- alloc (DictObj Dict.empty) ;;
  set_providers self d ;;;
  _get_all_providers self namespace providers ;;;
  d' <-- get_providers self ;;
  m <-- dict_load d' ;;
  for_each
    (fun prov =>
       call (add_data_queries_to_entities prov (bound_get_timespan self)))
    (data_provs (Dict.values m)) ;;;
  ti <-- get_provider self "TILookup" ;;
  call (add_ioc_queries_to_entities ti "ti") ;;;
  path <-- _get_def_pivot_reg ;;
  call (register_pivots path (Some "other") None None namespace).

(** [Pivot(namespace, providers, timespan)]: a new object, initialised. *)
Definition Pivot (namespace : option Namespace)
    (providers : option (list PyObj)) (timespan : option TimeSpan.t)
    : M loc :=
  self <-- alloc (PivotObj None None) ;;
  __init__ self namespace providers timespan ;;;
  ret self.

(** [edit_query_time(self, units, timespan)] *)
Definition edit_query_time (self : loc) (units : string)
    (timespan : option TimeSpan.t) : M unit :=
  qt <-- get_query_time self ;;
  (if match qt with
      | None => true
      | Some q => negb (String.eqb (QueryTime_units q) units)
      end
   then _set_default_query_time self units 1
   else ret tt) ;;;
  match timespan with
  | Some ts => set_query_time self (QueryTime.of_timespan ts)
  | None => ret tt
  end ;;;
  qt' <-- get_query_time self ;;
  match qt' with
  | Some q => emit (QueryTime_display q)
  | None => raise (AttributeError "display")
  end.

(** [register_pivot_providers(pivot_reg_path, namespace, def_container,
    force_container)] *)
Definition register_pivot_providers (pivot_reg_path : string)
    (namespace : option Namespace) (def_container : string)
    (force_container : bool) : M unit :=
  call (register_pivots pivot_reg_path None (Some def_container)
          (Some force_container) namespace).
End WithExternals.

(** ** Reading a world *)

(** The provider registry of the Pivot object at [self]. *)
Definition registry_of (w : World) (self : loc) : option (Dict.t PyObj) :=
  match heap w !! self with
  | Some (PivotObj _ (Some d)) =>
      match heap w !! d with
      | Some (DictObj m) => Some m
      | _ => None
      end
  | _ => None
  end.

(** The [_query_time] attribute of the Pivot object at [self]. *)
Definition query_time_of (w : World) (self : loc) : option QueryTime.t :=
  match heap w !! self with
  | Some (PivotObj qt _) => qt
  | _ => None
  end.

(** No query provider of environment [k] in a list of objects. *)
Definition no_query_provider_for (k : string) (objs : list PyObj) : bool :=
  forallb
    (fun o =>
       match o with
       | QP q => negb (String.eqb (environment q) k)
       | _ => true
       end)
    objs.

(** No instance of type [ty] in a list of objects. *)
Definition no_instance_of (ty : PyType) (objs : list PyObj) : bool :=
  forallb (fun o => negb (isinstance o ty)) objs.

(** ** The registry and the calls of a construction, as functions of its
    arguments *)

(** The effect of [_get_query_providers] on a dictionary [m]. *)
Definition query_providers_into (m : Dict.t PyObj)
    (namespace : option Namespace) (providers : option (list PyObj))
    : Dict.t PyObj :=
  let m1 :=
    if truthy_namespace namespace then
      Dict.update m
        (query_provider_dict (Dict.values (default Dict.empty namespace)))
    else m in
  if truthy_providers providers then
    Dict.update m1 (query_provider_dict (default [] providers))
  else m1.

(** The effect of [_get_all_providers] on a dictionary [m]. *)
Definition all_providers_into (m : Dict.t PyObj)
    (namespace : option Namespace) (providers : option (list PyObj))
    : Dict.t PyObj :=
  Dict.setitem (query_providers_into m namespace providers) "TILookup"
    (default (TI TILookup_default)
       (_get_provider_by_type TILookup_type namespace providers)).

(** The events [_get_all_providers] records: [TILookup()] when no instance
    was found. *)
Definition ti_events (namespace : option Namespace)
    (providers : option (list PyObj)) : list Event :=
  match _get_provider_by_type TILookup_type namespace providers with
  | Some _ => []
  | None => [TILookup_new]
  end.

(** The helper calls [__init__] sets out to make, in order. *)
Definition init_calls (X : Externals) (self : loc) (reg : Dict.t PyObj)
    (namespace : option Namespace) : list Event :=
  map (fun prov => add_data_queries_to_entities prov (bound_get_timespan self))
    (data_provs (Dict.values reg))
  ++ [add_ioc_queries_to_entities (Dict.get reg "TILookup") "ti";
      register_pivots (resource_filename X "msticpy" _DEF_PIVOT_REG_FILE)
        (Some "other") None None namespace].

(** The calls really made, up to and including the first that raises. *)
Fixpoint calls_made (X : Externals) (evs : list Event) : list Event :=
  match evs with
  | [] => []
  | ev :: evs' => ev :: (if raises X ev then [] else calls_made X evs')
  end.

Definition first_raising (X : Externals) (evs : list Event) : option Event :=
  List.find (raises X) evs.

(** The [_query_time] a construction leaves. *)
Definition initial_query_time (now : datetime) (timespan : option TimeSpan.t)
    : QueryTime.t :=
  match timespan with
  | Some ts => QueryTime.of_timespan ts
  | None => QueryTime.of_origin now 1 0 "day"
  end.

(** ** Operations on a constructed Pivot environment *)

Inductive Op : Type :=
| op_providers
| op_get_provider (name : string)
| op_edit_query_time (units : string) (timespan : option TimeSpan.t)
| op_start
| op_end
| op_timespan
| op_set_timespan (timespan : TimeSpan.t)
| op_get_timespan
| op_register_pivot_providers (pivot_reg_path : string)
    (namespace : option Namespace) (def_container : string)
    (force_container : bool)
| op_tick (dt : Z).

(** Time passes between operations. *)
Definition tick (dt : Z) : M unit :=
  fun w =>
    ({| heap := heap w; clock := (clock w + dt)%Z; trace := trace w |}, Ok tt).

Definition run_op (X : Externals) (self : loc) (op : Op) : M unit :=
  match op with
  | op_providers => providers self ;;; ret tt
  | op_get_provider name => get_provider self name ;;; ret tt
  | op_edit_query_time units ts => edit_query_time X self units ts
  | op_start => start X self ;;; ret tt
  | op_end => end_ X self ;;; ret tt
  | op_timespan => timespan X self ;;; ret tt
  | op_set_timespan ts => timespan_setter self ts
  | op_get_timespan => _get_timespan X self ;;; ret tt
  | op_register_pivot_providers path ns dc fc =>
      register_pivot_providers X path ns dc fc
  | op_tick dt => tick dt
  end.

(** A caller runs operations one after the other, whether or not one of
    them raises. *)
Definition run_ops (X : Externals) (self : loc) (ops : list Op) (w : World)
    : World :=
  fold_left (fun w' op => fst (run_op X self op w')) ops w.

(** The query time [edit_query_time] leaves and displays, given the current
    one [q]. *)
Definition edited_query_time (X : Externals) (w : World) (q : QueryTime.t)
    (units : string) (ts : option TimeSpan.t) : QueryTime.t :=
  match ts with
  | Some s => QueryTime.of_timespan s
  | None =>
      if String.eqb (QueryTime_units X q) units then q
      else QueryTime.of_origin (clock w) 1 0 units
  end.

(** A constructed Pivot environment at [self]: its query time is set, and its
    registry is the dictionary object at [d], which holds [m]. *)
Definition pivot_at (w : World) (self d : loc) (m : Dict.t PyObj) : Prop :=
  (exists q, heap w !! self = Some (PivotObj (Some q) (Some d))) /\
  heap w !! d = Some (DictObj m).

(** ** What a computation does to the heap *)

(** A computation that leaves every object of the heap as it is. *)
Definition no_write {A} (m : M A) : Prop :=
  forall w, heap (fst (m w)) = heap w.

(** A computation that allocates nothing and changes no object other than
    the one at [self]. *)
Definition writes_only (self : loc) {A} (m : M A) : Prop :=
  forall w,
    length (heap (fst (m w))) = length (heap w) /\
    forall l, l <> self -> heap (fst (m w)) !! l = heap w !! l.

(** The operations that do not assign [_query_time]. *)
Definition keeps_query_time (op : Op) : bool :=
  match op with
  | op_set_timespan _ | op_edit_query_time _ _ => false
  | _ => true
  end.

(** An entry that holds a query provider is keyed by the environment of that
    provider. *)
Definition keyed_by_environment (kv : string * PyObj) : Prop :=
  forall q, snd kv = QP q -> fst kv = environment q.

(** ** A sample environment *)

Module Sample.
Definition day_hour_minute (u : string) : Z :=
  if String.eqb u "day" then 86400%Z
  else if String.eqb u "hour" then 3600%Z
  else 60%Z.

(** Collaborators that never raise. *)
Definition quiet : Externals :=
  {| unit_length := day_hour_minute;
     default_units := "min";
     resource_filename :=
       fun pkg file => String.append pkg (String.append "/" file);
     raises := fun _ => false |}.

Definition w0 : World := {| heap := []; clock := 1000000%Z; trace := [] |}.

Definition qp_a : QueryProvider :=
  {| environment := "LogAnalytics"; qp_id := 1 |}.
Definition qp_b : QueryProvider :=
  {| environment := "LogAnalytics"; qp_id := 2 |}.
Definition qp_c : QueryProvider :=
  {| environment := "LogAnalytics"; qp_id := 3 |}.
Definition qp_s : QueryProvider :=
  {| environment := "Splunk"; qp_id := 4 |}.
Definition ti_1 : TILookup := TILookup_instance 1.
Definition ti_2 : TILookup := TILookup_instance 2.
Definition ti_3 : TILookup := TILookup_instance 3.
Definition span : TimeSpan.t := TimeSpan.new 500%Z 900%Z.

(** A namespace with two query providers of one environment and a TI
    lookup, and an explicit list with a third provider of that environment
    and two TI lookups. *)
Definition ns_ab : Namespace :=
  [("qry_a", QP qp_a); ("x", Other 0); ("qry_b", QP qp_b);
   ("ti", TI ti_1)].
Definition provs_c : list PyObj := [QP qp_c; TI ti_2; TI ti_3].
Definition provs_ti : list PyObj := [TI ti_1; TI ti_2].
Definition ns_x : Namespace := [("x", Other 0)].

(** The worlds that constructions from [w0] leave. *)
Definition w_both : World :=
  fst (Pivot quiet (Some ns_ab) (Some provs_c) None w0).
Definition w_ns : World := fst (Pivot quiet (Some ns_ab) None None w0).
Definition w_ti : World := fst (Pivot quiet None (Some provs_ti) None w0).
Definition w_none : World := fst (Pivot quiet None None None w0).
Definition w_x : World := fst (Pivot quiet (Some ns_x) None None w0).

Definition ops : list Op :=
  [op_tick 5%Z; op_edit_query_time "hour" None; op_get_provider "Splunk";
   op_register_pivot_providers "custom.yaml" None "custom" false].


(** Operations that leave [_query_time] alone, with the clock moving. *)
Definition reads : list Op :=
  [op_tick 7200%Z; op_start; op_get_provider "TILookup"; op_providers;
   op_register_pivot_providers "custom.yaml" None "custom" false;
   op_tick 100000%Z; op_timespan].

(** A construction with an explicit span, and a second environment built
    next to the one of [w_none]. *)
Definition w_span : World :=
  fst (Pivot quiet (Some ns_ab) (Some provs_c) (Some span) w0).
Definition w_second : World :=
  fst (Pivot quiet (Some ns_ab) None (Some span) w_none).
Definition second_ops : list Op :=
  [op_edit_query_time "hour" None; op_set_timespan (TimeSpan.new 1%Z 2%Z)].
End Sample.

(** * Properties *)

(** ** Dictionaries *)

Section DictFacts.
Context {V : Type}.
Implicit Types (d : Dict.t V) (k : string) (v : V).

Lemma get_setitem d k v k' :
  Dict.get (Dict.setitem d k v) k' =
  if String.eqb k k' then Some v else Dict.get d k'.
Proof.
  induction d as [|[k0 v0] d IH]; simpl.
  - reflexivity.
  - destruct (String.eqb_spec k0 k) as [->|Hne]; simpl.
    + destruct (String.eqb k k'); reflexivity.
    + rewrite IH.
      destruct (String.eqb_spec k0 k') as [->|Hne'].
      * destruct (String.eqb_spec k k'); congruence.
      * reflexivity.
Qed.

Lemma get_setitem_eq d k v : Dict.get (Dict.setitem d k v) k = Some v.
Proof. rewrite get_setitem, String.eqb_refl. reflexivity. Qed.

Lemma get_setitem_ne d k v k' :
  k <> k' -> Dict.get (Dict.setitem d k v) k' = Dict.get d k'.
Proof.
  intros Hne. rewrite get_setitem.
  destruct (String.eqb_spec k k'); congruence.
Qed.

Lemma keys_setitem d k v :
  Dict.keys (Dict.setitem d k v) =
  if bool_decide (k ∈ Dict.keys d) then Dict.keys d else Dict.keys d ++ [k].
Proof.
  induction d as [|[k0 v0] d IH]; simpl.
  - reflexivity.
  - destruct (String.eqb_spec k0 k) as [->|Hne]; simpl.
    + rewrite bool_decide_eq_true_2 by (left). reflexivity.
    + rewrite IH. case_bool_decide as Hin.
      * rewrite bool_decide_eq_true_2 by (right; exact Hin). reflexivity.
      * rewrite bool_decide_eq_false_2; [reflexivity|].
        intros [Heq|Hin']%elem_of_cons; congruence.
Qed.

(** One entry per key is kept by an assignment. *)
Lemma NoDup_keys_setitem d k v :
  NoDup (Dict.keys d) -> NoDup (Dict.keys (Dict.setitem d k v)).
Proof.
  intros Hd. rewrite keys_setitem. case_bool_decide as Hin.
  - exact Hd.
  - apply list.NoDup_app. split; [exact Hd|]. split.
    + intros x Hx ->%list_elem_of_singleton. contradiction.
    + apply NoDup_singleton.
Qed.

Lemma NoDup_keys_update d (other : Dict.t V) :
  NoDup (Dict.keys d) -> NoDup (Dict.keys (Dict.update d other)).
Proof.
  unfold Dict.update. revert d.
  induction other as [|[k v] other IH]; intros d Hd; simpl.
  - exact Hd.
  - apply IH, NoDup_keys_setitem, Hd.
Qed.

(** A key that [other] does not bind keeps its value. *)
Lemma get_update_absent d (other : Dict.t V) k :
  k ∉ Dict.keys other -> Dict.get (Dict.update d other) k = Dict.get d k.
Proof.
  unfold Dict.update. revert d.
  induction other as [|[k0 v0] other IH]; intros d Hk; simpl in *.
  - reflexivity.
  - apply not_elem_of_cons in Hk as [Hne Hk].
    rewrite IH by exact Hk. apply get_setitem_ne. congruence.
Qed.

(** The last binding of a key in [other] is the one kept. *)
Lemma get_update_last d (l1 l2 : Dict.t V) k v :
  k ∉ Dict.keys l2 ->
  Dict.get (Dict.update d (l1 ++ (k, v) :: l2)) k = Some v.
Proof.
  intros Hk. unfold Dict.update. rewrite fold_left_app. simpl.
  fold (Dict.update
          (Dict.setitem
             (fold_left (fun acc kv => Dict.setitem acc kv.1 kv.2) l1 d)
             k v) l2).
  rewrite get_update_absent by exact Hk. apply get_setitem_eq.
Qed.

Lemma comprehension_update {A} (f : A -> option (string * V))
    (xs : list A) :
  Dict.comprehension f xs = Dict.update Dict.empty (omap f xs).
Proof.
  unfold Dict.comprehension, Dict.update.
  generalize (@Dict.empty V).
  induction xs as [|x xs IH]; intros d; simpl.
  - reflexivity.
  - destruct (f x) as [[k v]|]; simpl; apply IH.
Qed.

Lemma get_absent d k : k ∉ Dict.keys d -> Dict.get d k = None.
Proof.
  induction d as [|[k0 v0] d IH]; simpl; intros Hk.
  - reflexivity.
  - apply not_elem_of_cons in Hk as [Hne Hk].
    destruct (String.eqb_spec k0 k); [congruence|]. apply IH, Hk.
Qed.

(** Updating with a dictionary: its bindings win, the others stay. *)
Lemma get_update d (o : Dict.t V) k :
  NoDup (Dict.keys o) ->
  Dict.get (Dict.update d o) k =
  match Dict.get o k with
  | Some v => Some v
  | None => Dict.get d k
  end.
Proof.
  unfold Dict.update. revert d.
  induction o as [|[k0 v0] o IH]; intros d Ho; simpl in *.
  - reflexivity.
  - apply list.NoDup_cons in Ho as [Hk0 Ho].
    rewrite IH by exact Ho.
    destruct (String.eqb_spec k0 k) as [->|Hne].
    + rewrite (get_absent o k Hk0). apply get_setitem_eq.
    + rewrite get_setitem_ne by exact Hne. reflexivity.
Qed.

Lemma NoDup_keys_comprehension {A} (f : A -> option (string * V))
    (xs : list A) :
  NoDup (Dict.keys (Dict.comprehension f xs)).
Proof.
  rewrite comprehension_update. apply NoDup_keys_update.
  apply NoDup_nil_2.
Qed.
End DictFacts.

(** ** The registry as a function of the two sources *)

Lemma query_provider_dict_unfold objs :
  query_provider_dict objs = Dict.update Dict.empty (omap qp_binding objs).
Proof. unfold query_provider_dict. apply comprehension_update. Qed.

Lemma no_query_provider_keys k objs :
  no_query_provider_for k objs = true ->
  k ∉ Dict.keys (omap qp_binding objs).
Proof.
  induction objs as [|o objs IH]; simpl; intros H.
  - apply not_elem_of_nil.
  - apply andb_true_iff in H as [Ho Hobjs].
    destruct o as [q| |]; simpl; auto.
    apply not_elem_of_cons. split; [|auto].
    apply negb_true_iff in Ho.
    destruct (String.eqb_spec (environment q) k); congruence.
Qed.

Lemma get_query_provider_dict_none k objs :
  no_query_provider_for k objs = true ->
  Dict.get (query_provider_dict objs) k = None.
Proof.
  intros H. rewrite query_provider_dict_unfold.
  rewrite get_update_absent by (apply no_query_provider_keys, H).
  reflexivity.
Qed.

(** The dictionary comprehension keeps, for each environment, the query
    provider met last. *)
Lemma get_query_provider_dict_last l1 q l2 :
  no_query_provider_for (environment q) l2 = true ->
  Dict.get (query_provider_dict (l1 ++ QP q :: l2)) (environment q)
  = Some (QP q).
Proof.
  intros H. rewrite query_provider_dict_unfold, omap_app. simpl.
  apply get_update_last, no_query_provider_keys, H.
Qed.

Lemma NoDup_query_provider_dict objs :
  NoDup (Dict.keys (query_provider_dict objs)).
Proof. apply NoDup_keys_comprehension. Qed.

Lemma no_query_provider_nil_of_falsy providers k :
  truthy_providers providers = false ->
  no_query_provider_for k (default [] providers) = true.
Proof. destruct providers as [[|??]|]; simpl; congruence. Qed.

(** Reading [_get_query_providers]: the explicit list first, then the
    namespace, then what the dictionary held. *)
Lemma get_query_providers_into m namespace providers k :
  Dict.get (query_providers_into m namespace providers) k =
  match Dict.get (query_provider_dict (default [] providers)) k with
  | Some v => Some v
  | None =>
      match Dict.get
              (query_provider_dict
                 (Dict.values (default Dict.empty namespace))) k with
      | Some v => Some v
      | None => Dict.get m k
      end
  end.
Proof.
  unfold query_providers_into.
  assert (Hns : forall m',
    Dict.get
      (if truthy_namespace namespace
       then Dict.update m'
              (query_provider_dict (Dict.values (default Dict.empty namespace)))
       else m') k =
    match Dict.get
            (query_provider_dict
               (Dict.values (default Dict.empty namespace))) k with
    | Some v => Some v
    | None => Dict.get m' k
    end).
  { intros m'. destruct (truthy_namespace namespace) eqn:Hn.
    - apply get_update, NoDup_query_provider_dict.
    - destruct namespace as [[|??]|]; simpl in *; congruence. }
  destruct (truthy_providers providers) eqn:Hp.
  - rewrite get_update by apply NoDup_query_provider_dict.
    rewrite Hns. reflexivity.
  - rewrite Hns.
    destruct providers as [[|??]|]; simpl in *; congruence.
Qed.

Lemma NoDup_query_providers_into m namespace providers :
  NoDup (Dict.keys m) ->
  NoDup (Dict.keys (query_providers_into m namespace providers)).
Proof.
  intros Hm. unfold query_providers_into.
  destruct (truthy_providers providers), (truthy_namespace namespace);
    repeat apply NoDup_keys_update; exact Hm.
Qed.

Lemma NoDup_all_providers_into m namespace providers :
  NoDup (Dict.keys m) ->
  NoDup (Dict.keys (all_providers_into m namespace providers)).
Proof.
  intros Hm. apply NoDup_keys_setitem, NoDup_query_providers_into, Hm.
Qed.

Lemma get_all_providers_into_TILookup m namespace providers :
  Dict.get (all_providers_into m namespace providers) "TILookup" =
  Some (default (TI TILookup_default)
          (_get_provider_by_type TILookup_type namespace providers)).
Proof. apply get_setitem_eq. Qed.

Lemma get_all_providers_into_other m namespace providers k :
  k <> "TILookup" ->
  Dict.get (all_providers_into m namespace providers) k =
  Dict.get (query_providers_into m namespace providers) k.
Proof. intros Hk. apply get_setitem_ne. congruence. Qed.

(** *** [_get_provider_by_type] *)

Lemma filter_no_instance ty objs :
  no_instance_of ty objs = true ->
  List.filter (fun prov => isinstance prov ty) objs = [].
Proof.
  induction objs as [|o objs IH]; simpl; intros H; [reflexivity|].
  apply andb_true_iff in H as [Ho Hobjs].
  apply negb_true_iff in Ho. rewrite Ho. auto.
Qed.

Lemma filter_instance_first ty l1 o l2 :
  no_instance_of ty l1 = true -> isinstance o ty = true ->
  List.filter (fun prov => isinstance prov ty) (l1 ++ o :: l2) =
  o :: List.filter (fun prov => isinstance prov ty) l2.
Proof.
  intros H1 Ho. rewrite List.filter_app, (filter_no_instance _ _ H1).
  simpl. rewrite Ho. reflexivity.
Qed.

Lemma filter_instance_last ty l1 o l2 :
  no_instance_of ty l2 = true -> isinstance o ty = true ->
  List.filter (fun prov => isinstance prov ty) (l1 ++ o :: l2) =
  List.filter (fun prov => isinstance prov ty) l1 ++ [o].
Proof.
  intros H2 Ho. rewrite List.filter_app. simpl.
  rewrite Ho, (filter_no_instance _ _ H2). reflexivity.
Qed.

(** An instance in the explicit list: the first one is returned. *)
Lemma get_provider_by_type_explicit ty namespace l1 o l2 :
  no_instance_of ty l1 = true -> isinstance o ty = true ->
  _get_provider_by_type ty namespace (Some (l1 ++ o :: l2)) = Some o.
Proof.
  intros H1 Ho. unfold _get_provider_by_type.
  assert (Ht : truthy_providers (Some (l1 ++ o :: l2)) = true)
    by (destruct l1; reflexivity).
  rewrite Ht. simpl default.
  rewrite (filter_instance_first _ _ _ _ H1 Ho). reflexivity.
Qed.

Lemma no_explicit_instance ty providers :
  no_instance_of ty (default [] providers) = true ->
  (if truthy_providers providers
   then List.filter (fun prov => isinstance prov ty) (default [] providers)
   else []) = [].
Proof.
  intros Hp. rewrite (filter_no_instance _ _ Hp).
  destruct (truthy_providers providers); reflexivity.
Qed.

(** No instance in the explicit list, one in the namespace: the last one of
    the namespace is returned. *)
Lemma get_provider_by_type_namespace ty (ns : Namespace) providers
    l1 o l2 :
  no_instance_of ty (default [] providers) = true ->
  Dict.values ns = l1 ++ o :: l2 ->
  no_instance_of ty l2 = true -> isinstance o ty = true ->
  _get_provider_by_type ty (Some ns) providers = Some o.
Proof.
  intros Hp Hns H2 Ho. unfold _get_provider_by_type.
  rewrite (no_explicit_instance _ _ Hp).
  assert (Ht : truthy_namespace (Some ns) = true).
  { destruct ns; [destruct l1; discriminate|reflexivity]. }
  rewrite Ht. simpl default. rewrite Hns.
  rewrite (filter_instance_last _ _ _ _ H2 Ho), last_snoc.
  destruct (List.filter (fun prov => isinstance prov ty) l1); reflexivity.
Qed.

(** No instance anywhere: nothing is returned. *)
Lemma get_provider_by_type_none ty namespace providers :
  no_instance_of ty (Dict.values (default Dict.empty namespace)) = true ->
  no_instance_of ty (default [] providers) = true ->
  _get_provider_by_type ty namespace providers = None.
Proof.
  intros Hn Hp. unfold _get_provider_by_type.
  rewrite (no_explicit_instance _ _ Hp), (filter_no_instance _ _ Hn).
  destruct (truthy_namespace namespace); reflexivity.
Qed.

(** Whatever is returned is an instance of the type asked for. *)
Lemma get_provider_by_type_isinstance ty namespace providers o :
  _get_provider_by_type ty namespace providers = Some o ->
  isinstance o ty = true.
Proof.
  unfold _get_provider_by_type.
  set (f := fun prov => isinstance prov ty).
  assert (Hns :
    (if truthy_namespace namespace
     then match List.filter f (Dict.values (default Dict.empty namespace)) with
          | [] => None
          | _ :: _ =>
              list.last
                (List.filter f (Dict.values (default Dict.empty namespace)))
          end
     else None) = Some o -> isinstance o ty = true).
  { destruct (truthy_namespace namespace); [|discriminate].
    destruct (List.filter f _) eqn:Hf; [discriminate|].
    intros Hl%last_Some_elem_of. rewrite <- Hf in Hl.
    apply list_elem_of_In, List.filter_In in Hl as [_ Hl]. exact Hl. }
  destruct (truthy_providers providers); [|exact Hns].
  destruct (List.filter f (default [] providers)) as [|p ps] eqn:Hf;
    [exact Hns|].
  intros [= ->].
  assert (Hin : In o (List.filter f (default [] providers)))
    by (rewrite Hf; left; reflexivity).
  apply List.filter_In in Hin as [_ Hin]. exact Hin.
Qed.

Lemma all_providers_into_TILookup_is_TI m namespace providers :
  exists t,
    Dict.get (all_providers_into m namespace providers) "TILookup"
    = Some (TI t).
Proof.
  rewrite get_all_providers_into_TILookup.
  destruct (_get_provider_by_type TILookup_type namespace providers)
    as [o|] eqn:Ho; simpl.
  - apply get_provider_by_type_isinstance in Ho.
    destruct o as [|t|]; try discriminate. exists t. reflexivity.
  - exists TILookup_default. reflexivity.
Qed.

(** ** Running the methods *)

(** *** A heap that ends with a new Pivot object and its dictionary *)

Lemma lookup_self (h l : list Obj) o : (h ++ o :: l) !! length h = Some o.
Proof. apply list_lookup_middle. reflexivity. Qed.

Lemma lookup_dict (h l : list Obj) a o :
  (h ++ a :: o :: l) !! S (length h) = Some o.
Proof.
  change (h ++ a :: o :: l) with (h ++ [a] ++ o :: l).
  rewrite app_assoc. apply list_lookup_middle.
  rewrite length_app. simpl. lia.
Qed.

Lemma insert_self (h l : list Obj) o o' :
  <[length h := o']> (h ++ o :: l) = h ++ o' :: l.
Proof.
  replace (length h) with (length h + 0) by lia.
  rewrite insert_app_r. reflexivity.
Qed.

Lemma insert_dict (h l : list Obj) a o o' :
  <[S (length h) := o']> (h ++ a :: o :: l) = h ++ a :: o' :: l.
Proof.
  replace (S (length h)) with (length h + 1) by lia.
  rewrite insert_app_r. reflexivity.
Qed.

Lemma snoc_snoc (h : list Obj) a b : (h ++ [a]) ++ [b] = h ++ [a; b].
Proof. rewrite <- app_assoc. reflexivity. Qed.

Lemma length_snoc (h : list Obj) a : length (h ++ [a]) = S (length h).
Proof. rewrite length_app. simpl. lia. Qed.

(** Symbolic execution on a heap that ends with the two new objects. *)
Ltac run :=
  repeat
    (progress
       (unfold bind, ret, raise, alloc, load, store, emit, utcnow;
        cbn [heap clock trace fst snd default];
        rewrite ?lookup_self, ?lookup_dict, ?insert_self, ?insert_dict,
          ?snoc_snoc, ?length_snoc)).

Lemma get_all_providers_run h c t qt m namespace providers :
  _get_all_providers (length h) namespace providers
    {| heap := h ++ [PivotObj qt (Some (S (length h))); DictObj m];
       clock := c; trace := t |}
  = ({| heap := h ++ [PivotObj qt (Some (S (length h)));
                      DictObj (all_providers_into m namespace providers)];
        clock := c; trace := t ++ ti_events namespace providers |}, Ok tt).
Proof.
  unfold _get_all_providers, _get_query_providers, all_providers_into,
    query_providers_into, ti_events, TILookup_ctor, get_providers,
    dict_update, dict_setitem, dict_load.
  destruct (truthy_namespace namespace), (truthy_providers providers),
    (_get_provider_by_type TILookup_type namespace providers); run.
  all: rewrite ?app_nil_r; try reflexivity.
Qed.

Lemma call_run X ev w :
  call X ev w =
  ({| heap := heap w; clock := clock w; trace := trace w ++ [ev] |},
   if raises X ev then Raise (ExternalError ev) else Ok tt).
Proof. unfold call. run. destruct (raises X ev); reflexivity. Qed.

Lemma for_each_call_run X evs w :
  for_each (call X) evs w =
  ({| heap := heap w; clock := clock w;
      trace := trace w ++ calls_made X evs |},
   match first_raising X evs with
   | Some ev => Raise (ExternalError ev)
   | None => Ok tt
   end).
Proof.
  revert w. induction evs as [|ev evs IH]; intros [h c t]; simpl.
  - unfold ret. rewrite app_nil_r. reflexivity.
  - unfold bind at 1. rewrite call_run. cbn [heap clock trace].
    destruct (raises X ev); [reflexivity|].
    rewrite IH. cbn [heap clock trace]. rewrite <- app_assoc. reflexivity.
Qed.

Lemma for_each_map {A B} (f : A -> B) (g : B -> M unit) xs :
  for_each (fun x => g (f x)) xs = for_each g (map f xs).
Proof. induction xs as [|x xs IH]; simpl; [|rewrite IH]; reflexivity. Qed.

Lemma for_each_app {A} (g : A -> M unit) xs ys w :
  for_each g (xs ++ ys) w = (for_each g xs ;;; for_each g ys) w.
Proof.
  revert w. induction xs as [|x xs IH]; intros w; simpl.
  - reflexivity.
  - unfold bind. destruct (g x w) as [w' [[]|e]]; [|reflexivity].
    rewrite IH. reflexivity.
Qed.

Lemma for_each_call_map_run {A} X (f : A -> Event) xs w :
  for_each (fun x => call X (f x)) xs w =
  ({| heap := heap w; clock := clock w;
      trace := trace w ++ calls_made X (map f xs) |},
   match first_raising X (map f xs) with
   | Some ev => Raise (ExternalError ev)
   | None => Ok tt
   end).
Proof. rewrite (for_each_map f (call X)). apply for_each_call_run. Qed.

Lemma calls_made_app X l1 l2 :
  calls_made X (l1 ++ l2) =
  calls_made X l1 ++
  match first_raising X l1 with
  | Some _ => []
  | None => calls_made X l2
  end.
Proof.
  unfold first_raising.
  induction l1 as [|ev l1 IH]; simpl; [reflexivity|].
  destruct (raises X ev); simpl; [reflexivity|]. rewrite IH. reflexivity.
Qed.

Lemma first_raising_app X l1 l2 :
  first_raising X (l1 ++ l2) =
  match first_raising X l1 with
  | Some ev => Some ev
  | None => first_raising X l2
  end.
Proof.
  unfold first_raising.
  induction l1 as [|ev l1 IH]; simpl; [reflexivity|].
  destruct (raises X ev); [reflexivity|]. exact IH.
Qed.

Lemma Pivot_run X namespace providers timespan w :
  let self := length (heap w) in
  let reg := all_providers_into Dict.empty namespace providers in
  let evs := init_calls X self reg namespace in
  Pivot X namespace providers timespan w =
  ({| heap := heap w ++
              [PivotObj (Some (initial_query_time (clock w) timespan))
                 (Some (S self));
               DictObj reg];
      clock := clock w;
      trace := trace w ++ ti_events namespace providers ++ calls_made X evs |},
   match first_raising X evs with
   | Some ev => Raise (ExternalError ev)
   | None => Ok self
   end).
Proof.
  destruct w as [h c t]. cbv zeta. cbn [heap clock trace].
  unfold Pivot, __init__, timespan_setter, _set_default_query_time,
    set_query_time, set_providers, init_calls.
  rewrite calls_made_app, first_raising_app.
  destruct timespan as [ts|]; run.
  all: rewrite get_all_providers_run.
  all: unfold get_provider, get_providers, dict_load, _get_def_pivot_reg; run.
  all: rewrite for_each_call_map_run; cbn [heap clock trace].
  all: destruct (first_raising X (map _ _)) as [ev|];
    [rewrite app_nil_r, <- app_assoc; reflexivity|].
  all: run; rewrite call_run; cbn [heap clock trace].
  all: unfold first_raising; simpl.
  all: destruct (raises X (add_ioc_queries_to_entities _ _));
    [rewrite <- !app_assoc; reflexivity|].
  all: rewrite call_run; cbn [heap clock trace].
  all: destruct (raises X (register_pivots _ _ _ _ _));
    rewrite <- !app_assoc; reflexivity.
Qed.

(** *** Methods on any Pivot object of the heap *)

Section Methods.
Variable X : Externals.
Implicit Types (w : World) (self d : loc) (q : QueryTime.t).

Lemma get_query_time_run w self qt p :
  heap w !! self = Some (PivotObj qt p) ->
  get_query_time self w = (w, Ok qt).
Proof.
  intros H. unfold get_query_time, bind, load. rewrite H. reflexivity.
Qed.

Lemma set_query_time_run w self qt p q :
  heap w !! self = Some (PivotObj qt p) ->
  set_query_time self q w =
  ({| heap := <[self := PivotObj (Some q) p]> (heap w);
      clock := clock w; trace := trace w |}, Ok tt).
Proof.
  intros H. unfold set_query_time, bind, load. rewrite H. reflexivity.
Qed.

Lemma get_providers_run w self qt d :
  heap w !! self = Some (PivotObj qt (Some d)) ->
  get_providers self w = (w, Ok d).
Proof.
  intros H. unfold get_providers, bind, load. rewrite H. reflexivity.
Qed.

Lemma dict_load_run w d m :
  heap w !! d = Some (DictObj m) -> dict_load d w = (w, Ok m).
Proof. intros H. unfold dict_load, bind, load. rewrite H. reflexivity. Qed.

Lemma get_provider_run w self qt d m k :
  heap w !! self = Some (PivotObj qt (Some d)) ->
  heap w !! d = Some (DictObj m) ->
  get_provider self k w = (w, Ok (Dict.get m k)).
Proof.
  intros Hs Hd. unfold get_provider, bind.
  rewrite (get_providers_run _ _ _ _ Hs), (dict_load_run _ _ _ Hd).
  reflexivity.
Qed.

Lemma start_run w self q p :
  heap w !! self = Some (PivotObj (Some q) p) ->
  start X self w = (w, Ok (QueryTime_start X q)).
Proof.
  intros H. unfold start, bind. rewrite (get_query_time_run _ _ _ _ H).
  reflexivity.
Qed.

Lemma end_run w self q p :
  heap w !! self = Some (PivotObj (Some q) p) ->
  end_ X self w = (w, Ok (QueryTime_end X q)).
Proof.
  intros H. unfold end_, bind. rewrite (get_query_time_run _ _ _ _ H).
  reflexivity.
Qed.

Lemma timespan_run w self q p :
  heap w !! self = Some (PivotObj (Some q) p) ->
  timespan X self w =
  (w, Ok (TimeSpan.new (QueryTime_start X q) (QueryTime_end X q))).
Proof.
  intros H. unfold timespan, bind.
  rewrite (start_run _ _ _ _ H), (end_run _ _ _ _ H). reflexivity.
Qed.

Lemma _get_timespan_run w self q p :
  heap w !! self = Some (PivotObj (Some q) p) ->
  _get_timespan X self w =
  (w, Ok (TimeSpan.new (QueryTime_start X q) (QueryTime_end X q))).
Proof.
  intros H. unfold _get_timespan, bind.
  rewrite (start_run _ _ _ _ H), (end_run _ _ _ _ H). reflexivity.
Qed.

Lemma lookup_after_store w self (o o' : Obj) :
  heap w !! self = Some o -> <[self := o']> (heap w) !! self = Some o'.
Proof. intros H%lookup_lt_Some. apply list_lookup_insert_eq, H. Qed.

Lemma bind_run_ok {A B} (m : M A) (f : A -> M B) w w' a :
  m w = (w', Ok a) -> bind m f w = f a w'.
Proof. intros H. unfold bind. rewrite H. reflexivity. Qed.

Lemma _set_default_query_time_run w self qt p units before :
  heap w !! self = Some (PivotObj qt p) ->
  _set_default_query_time self units before w =
  ({| heap := <[self := PivotObj
                          (Some (QueryTime.of_origin (clock w) before 0 units))
                          p]> (heap w);
      clock := clock w; trace := trace w |}, Ok tt).
Proof.
  intros H. unfold _set_default_query_time.
  rewrite (bind_run_ok _ _ w w (clock w)) by reflexivity.
  apply (set_query_time_run _ _ _ _ _ H).
Qed.

Lemma edit_query_time_run w self q p units ts :
  heap w !! self = Some (PivotObj (Some q) p) ->
  edit_query_time X self units ts w =
  ({| heap :=
        <[self := PivotObj (Some (edited_query_time X w q units ts)) p]>
          (heap w);
      clock := clock w;
      trace :=
        trace w ++ [QueryTime_display (edited_query_time X w q units ts)] |},
   Ok tt).
Proof.
  intros H. unfold edit_query_time, edited_query_time.
  rewrite (bind_run_ok _ _ _ _ _ (get_query_time_run _ _ _ _ H)).
  destruct (String.eqb (QueryTime_units X q) units); cbn [negb].
  - rewrite (bind_run_ok _ _ w w tt) by reflexivity.
    destruct ts as [s|]; cbv beta iota.
    + rewrite (bind_run_ok _ _ _ _ _ (set_query_time_run _ _ _ _ _ H)).
      erewrite bind_run_ok
        by (eapply get_query_time_run; cbn [heap];
            apply (lookup_after_store _ _ _ _ H)).
      reflexivity.
    + rewrite (bind_run_ok _ _ w w tt) by reflexivity.
      rewrite (bind_run_ok _ _ _ _ _ (get_query_time_run _ _ _ _ H)).
      rewrite (list_insert_id _ _ _ H). reflexivity.
  - rewrite (bind_run_ok _ _ _ _ _
               (_set_default_query_time_run _ _ _ _ units 1 H)).
    destruct ts as [s|]; cbv beta iota.
    + erewrite bind_run_ok
        by (eapply set_query_time_run; cbn [heap];
            apply (lookup_after_store _ _ _ _ H)).
      cbn [heap clock trace]. rewrite list_insert_insert_eq.
      erewrite bind_run_ok
        by (eapply get_query_time_run; cbn [heap];
            apply (lookup_after_store _ _ _ _ H)).
      reflexivity.
    + erewrite (bind_run_ok _ _ _ _ tt) by reflexivity.
      erewrite bind_run_ok
        by (eapply get_query_time_run; cbn [heap];
            apply (lookup_after_store _ _ _ _ H)).
      reflexivity.
Qed.
End Methods.

(** *** Construction, and the operations that follow it *)

Section Construction.
Variable X : Externals.

(** What a construction that returns has built. *)
Lemma Pivot_returns namespace providers timespan w w1 self :
  Pivot X namespace providers timespan w = (w1, Ok self) ->
  self = length (heap w) /\
  clock w1 = clock w /\
  heap w1 !! self =
    Some (PivotObj (Some (initial_query_time (clock w) timespan))
            (Some (S self))) /\
  heap w1 !! S self =
    Some (DictObj (all_providers_into Dict.empty namespace providers)) /\
  trace w1 =
    trace w ++ ti_events namespace providers ++
    calls_made X
      (init_calls X self
         (all_providers_into Dict.empty namespace providers) namespace) /\
  first_raising X
    (init_calls X self
       (all_providers_into Dict.empty namespace providers) namespace) = None.
Proof.
  rewrite Pivot_run. cbv zeta.
  destruct (first_raising X _) eqn:Hr; [discriminate|].
  intros [= <- <-]. cbn [heap clock trace].
  rewrite lookup_self, lookup_dict. repeat split; first [exact Hr|reflexivity].
Qed.

Lemma Pivot_pivot_at namespace providers timespan w w1 self :
  Pivot X namespace providers timespan w = (w1, Ok self) ->
  pivot_at w1 self (S self)
    (all_providers_into Dict.empty namespace providers).
Proof.
  intros (_ & _ & Hs & Hd & _)%Pivot_returns. split; [eauto|exact Hd].
Qed.

(** Reading the registry of a constructed environment. *)
Lemma get_provider_pivot_at w self d m k :
  pivot_at w self d m -> get_provider self k w = (w, Ok (Dict.get m k)).
Proof. intros [[q Hs] Hd]. apply (get_provider_run _ _ _ _ _ _ Hs Hd). Qed.

Lemma registry_of_pivot_at w self d m :
  pivot_at w self d m -> registry_of w self = Some m.
Proof.
  intros [[q Hs] Hd]. unfold registry_of. rewrite Hs, Hd. reflexivity.
Qed.

Lemma pivot_at_store_self w self d m q' c t :
  pivot_at w self d m ->
  pivot_at {| heap := <[self := PivotObj (Some q') (Some d)]> (heap w);
              clock := c; trace := t |} self d m.
Proof.
  intros [[q0 Hs] Hd]. split; cbn [heap].
  - exists q'. apply list_lookup_insert_eq, (lookup_lt_Some _ _ _ Hs).
  - rewrite list_lookup_insert_ne; [exact Hd|].
    intros ->. congruence.
Qed.

Lemma pivot_at_same_heap w w' self d m :
  heap w' = heap w -> pivot_at w self d m -> pivot_at w' self d m.
Proof. unfold pivot_at. intros ->. auto. Qed.

Lemma run_op_pivot_at w self d m op :
  pivot_at w self d m -> pivot_at (run_op X self op w).1 self d m.
Proof.
  intros Hp. pose proof Hp as [[q Hs] Hd].
  destruct op as [|name|units ts| | | |ts| |path ns dc fc|dt];
    cbn [run_op].
  - unfold providers.
    rewrite (bind_run_ok _ _ _ _ _ (get_providers_run _ _ _ _ Hs)).
    exact Hp.
  - rewrite (bind_run_ok _ _ _ _ _ (get_provider_run _ _ _ _ _ name Hs Hd)).
    exact Hp.
  - rewrite (edit_query_time_run X _ _ _ _ units ts Hs).
    cbn [fst]. apply pivot_at_store_self, Hp.
  - rewrite (bind_run_ok _ _ _ _ _ (start_run X _ _ _ _ Hs)). exact Hp.
  - rewrite (bind_run_ok _ _ _ _ _ (end_run X _ _ _ _ Hs)). exact Hp.
  - rewrite (bind_run_ok _ _ _ _ _ (timespan_run X _ _ _ _ Hs)). exact Hp.
  - unfold timespan_setter. rewrite (set_query_time_run _ _ _ _ _ Hs).
    cbn [fst]. apply pivot_at_store_self, Hp.
  - rewrite (bind_run_ok _ _ _ _ _ (_get_timespan_run X _ _ _ _ Hs)).
    exact Hp.
  - unfold register_pivot_providers. rewrite call_run. cbn [fst].
    eapply pivot_at_same_heap; [|exact Hp]. reflexivity.
  - cbn [tick fst]. eapply pivot_at_same_heap; [|exact Hp]. reflexivity.
Qed.

Lemma run_ops_pivot_at ops w self d m :
  pivot_at w self d m -> pivot_at (run_ops X self ops w) self d m.
Proof.
  unfold run_ops. revert w.
  induction ops as [|op ops IH]; intros w Hp; simpl; [exact Hp|].
  apply IH, run_op_pivot_at, Hp.
Qed.

Lemma calls_made_subset evs ev : In ev (calls_made X evs) -> In ev evs.
Proof.
  induction evs as [|e evs IH]; simpl; [tauto|].
  intros [->|H]; [left; reflexivity|].
  destruct (raises X e); [destruct H|]. right. auto.
Qed.

Lemma timespan_eta (ts : TimeSpan.t) :
  TimeSpan.new (TimeSpan.start ts) (TimeSpan.end_ ts) = ts.
Proof. destruct ts. reflexivity. Qed.
End Construction.

(** * The specification, statement by statement *)

Section Statements.
Variable X : Externals.

(** The registry of a constructed environment, read through
    [get_provider]. *)
Lemma get_provider_constructed namespace providers timespan w w1 self k :
  Pivot X namespace providers timespan w = (w1, Ok self) ->
  get_provider self k w1 =
  (w1, Ok (Dict.get (all_providers_into Dict.empty namespace providers) k)).
Proof. intros H%Pivot_pivot_at. apply (get_provider_pivot_at _ _ _ _ _ H). Qed.

Lemma query_provider_dict_no_instance objs :
  no_instance_of QueryProvider_type objs = true ->
  query_provider_dict objs = Dict.empty.
Proof.
  intros H. rewrite query_provider_dict_unfold.
  replace (omap qp_binding objs) with (@nil (string * PyObj));
    [reflexivity|].
  induction objs as [|o objs IH]; simpl in *; [reflexivity|].
  apply andb_true_iff in H as [Ho Hobjs].
  destruct o; simpl in *; try discriminate; auto.
Qed.

Lemma data_provs_no_query_providers namespace providers :
  no_instance_of QueryProvider_type
    (Dict.values (default Dict.empty namespace)) = true ->
  no_instance_of QueryProvider_type (default [] providers) = true ->
  data_provs
    (Dict.values (all_providers_into Dict.empty namespace providers)) = [].
Proof.
  intros Hn Hp.
  destruct (all_providers_into_TILookup_is_TI Dict.empty namespace providers)
    as [t Ht].
  unfold all_providers_into, query_providers_into in *.
  rewrite (query_provider_dict_no_instance _ Hn),
    (query_provider_dict_no_instance _ Hp) in *.
  destruct (truthy_namespace namespace), (truthy_providers providers);
    simpl in *; injection Ht as ->; reflexivity.
Qed.

(** C2.  When a construction is given both a namespace and an explicit
    provider list and both hold a provider of one category key, the one of
    the explicit list is stored: for a query-provider environment [k]
    (an environment name, so not the key ["TILookup"]) the query provider
    of the list that is met last for [k], and for the key ["TILookup"] the
    first TI lookup of the list. *)
Theorem explicit_provider_overrides_namespace
    (ns : Namespace) (provs : list PyObj) ts w w1 self :
  Pivot X (Some ns) (Some provs) ts w = (w1, Ok self) ->
  (forall k q_ns l1 q l2,
      In (QP q_ns) (Dict.values ns) -> environment q_ns = k ->
      provs = l1 ++ QP q :: l2 -> environment q = k ->
      no_query_provider_for k l2 = true ->
      k <> "TILookup" ->
      get_provider self k w1 = (w1, Ok (Some (QP q)))) /\
  (forall t_ns l1 t l2,
      In (TI t_ns) (Dict.values ns) ->
      provs = l1 ++ TI t :: l2 ->
      no_instance_of TILookup_type l1 = true ->
      get_provider self "TILookup" w1 = (w1, Ok (Some (TI t)))).
Proof.
  intros Hrun. split.
  - intros k q_ns l1 q l2 _ _ -> <- Hl2 Hk.
    rewrite (get_provider_constructed _ _ _ _ _ _ _ Hrun).
    rewrite get_all_providers_into_other by exact Hk.
    rewrite get_query_providers_into. simpl default.
    rewrite (get_query_provider_dict_last _ _ _ Hl2). reflexivity.
  - intros t_ns l1 t l2 _ -> Hl1.
    rewrite (get_provider_constructed _ _ _ _ _ _ _ Hrun).
    rewrite get_all_providers_into_TILookup.
    rewrite (get_provider_by_type_explicit TILookup_type _ l1 (TI t) l2 Hl1)
      by reflexivity.
    reflexivity.
Qed.

(** C3.  When the namespace holds two (or more) query providers of one
    environment [k], the one met later in the iteration order of the
    namespace is the one stored under [k], and the registry has one entry
    per key.  The explicit list holds no query provider for [k] (C2 covers
    that case), and [k] is an environment name, not ["TILookup"]. *)
Theorem later_namespace_provider_wins
    (ns : Namespace) provs ts w w1 self k l1 q1 l2 q2 l3 :
  Pivot X (Some ns) provs ts w = (w1, Ok self) ->
  Dict.values ns = l1 ++ QP q1 :: l2 ++ QP q2 :: l3 ->
  environment q1 = k -> environment q2 = k ->
  no_query_provider_for k l3 = true ->
  no_query_provider_for k (default [] provs) = true ->
  k <> "TILookup" ->
  get_provider self k w1 = (w1, Ok (Some (QP q2))) /\
  exists reg,
    registry_of w1 self = Some reg /\ NoDup (Dict.keys reg) /\
    Dict.get reg k = Some (QP q2).
Proof.
  intros Hrun Hns _ <- Hl3 Hprovs Hk.
  assert (Hget :
    Dict.get (all_providers_into Dict.empty (Some ns) provs)
      (environment q2) = Some (QP q2)).
  { rewrite get_all_providers_into_other by exact Hk.
    rewrite get_query_providers_into.
    rewrite (get_query_provider_dict_none _ _ Hprovs).
    simpl default. rewrite Hns.
    change (l1 ++ QP q1 :: l2 ++ QP q2 :: l3)
      with (l1 ++ (QP q1 :: l2) ++ QP q2 :: l3).
    rewrite app_assoc.
    rewrite (get_query_provider_dict_last _ _ _ Hl3). reflexivity. }
  split.
  - rewrite (get_provider_constructed _ _ _ _ _ _ _ Hrun), Hget.
    reflexivity.
  - eexists. split; [|split; [|exact Hget]].
    + apply (registry_of_pivot_at _ _ _ _
               (Pivot_pivot_at _ _ _ _ _ _ _ Hrun)).
    + apply NoDup_all_providers_into, NoDup_nil_2.
Qed.

(** C4, as amended.  The registry holds at most one entry per key.  Within
    the namespace the last instance wins, for a query-provider environment
    and for the TI lookup alike, and within the explicit list the last
    query provider of an environment wins; but of the TI lookups of the
    explicit list the FIRST one is recorded ([ti_provs[0]]). *)
Theorem last_assignment_wins_within_a_source ns provs ts w w1 self :
  Pivot X ns provs ts w = (w1, Ok self) ->
  (exists reg, registry_of w1 self = Some reg /\ NoDup (Dict.keys reg)) /\
  (forall nsd k l1 q l2,
      ns = Some nsd -> Dict.values nsd = l1 ++ QP q :: l2 ->
      environment q = k -> no_query_provider_for k l2 = true ->
      no_query_provider_for k (default [] provs) = true ->
      k <> "TILookup" ->
      get_provider self k w1 = (w1, Ok (Some (QP q)))) /\
  (forall k l1 q l2,
      provs = Some (l1 ++ QP q :: l2) ->
      environment q = k -> no_query_provider_for k l2 = true ->
      k <> "TILookup" ->
      get_provider self k w1 = (w1, Ok (Some (QP q)))) /\
  (forall nsd l1 t l2,
      ns = Some nsd -> Dict.values nsd = l1 ++ TI t :: l2 ->
      no_instance_of TILookup_type l2 = true ->
      no_instance_of TILookup_type (default [] provs) = true ->
      get_provider self "TILookup" w1 = (w1, Ok (Some (TI t)))) /\
  (forall l1 t l2,
      provs = Some (l1 ++ TI t :: l2) ->
      no_instance_of TILookup_type l1 = true ->
      get_provider self "TILookup" w1 = (w1, Ok (Some (TI t)))).
Proof.
  intros Hrun.
  pose proof (fun k => get_provider_constructed _ _ _ _ _ _ k Hrun)
    as Hget.
  split; [|split; [|split; [|split]]].
  - eexists. split.
    + apply (registry_of_pivot_at _ _ _ _
               (Pivot_pivot_at _ _ _ _ _ _ _ Hrun)).
    + apply NoDup_all_providers_into, NoDup_nil_2.
  - intros nsd k l1 q l2 -> Hns <- Hl2 Hprovs Hk.
    rewrite Hget, get_all_providers_into_other by exact Hk.
    rewrite get_query_providers_into.
    rewrite (get_query_provider_dict_none _ _ Hprovs).
    simpl default. rewrite Hns.
    rewrite (get_query_provider_dict_last _ _ _ Hl2). reflexivity.
  - intros k l1 q l2 -> <- Hl2 Hk.
    rewrite Hget, get_all_providers_into_other by exact Hk.
    rewrite get_query_providers_into. simpl default.
    rewrite (get_query_provider_dict_last _ _ _ Hl2). reflexivity.
  - intros nsd l1 t l2 -> Hns Hl2 Hprovs.
    rewrite Hget, get_all_providers_into_TILookup.
    rewrite (get_provider_by_type_namespace TILookup_type nsd provs
               l1 (TI t) l2 Hprovs Hns Hl2) by reflexivity.
    reflexivity.
  - intros l1 t l2 -> Hl1.
    rewrite Hget, get_all_providers_into_TILookup.
    rewrite (get_provider_by_type_explicit TILookup_type _ l1 (TI t) l2 Hl1)
      by reflexivity.
    reflexivity.
Qed.

(** C5.  When neither the namespace nor the explicit list holds a TI
    lookup, [TILookup()] is called during construction and its result is
    stored under the key ["TILookup"]. *)
Theorem default_TILookup_when_none_found ns provs ts w w1 self :
  Pivot X ns provs ts w = (w1, Ok self) ->
  no_instance_of TILookup_type
    (Dict.values (default Dict.empty ns)) = true ->
  no_instance_of TILookup_type (default [] provs) = true ->
  get_provider self "TILookup" w1
  = (w1, Ok (Some (TI TILookup_default))) /\
  exists tr, trace w1 = trace w ++ tr /\ In TILookup_new tr.
Proof.
  intros Hrun Hns Hprovs.
  pose proof (get_provider_by_type_none TILookup_type ns provs Hns Hprovs)
    as Hnone.
  split.
  - rewrite (get_provider_constructed _ _ _ _ _ _ _ Hrun).
    rewrite get_all_providers_into_TILookup, Hnone. reflexivity.
  - apply Pivot_returns in Hrun as (_ & _ & _ & _ & Htr & _).
    eexists. split; [exact Htr|].
    unfold ti_events. rewrite Hnone. left. reflexivity.
Qed.

(** C6.  With no query provider in the namespace nor in the explicit list,
    a construction makes no call to [add_data_queries_to_entities], and it
    returns the new environment: the only calls that could raise are the
    two registrations that remain, whose errors are their own. *)
Theorem zero_query_providers_is_no_error ns provs ts w :
  no_instance_of QueryProvider_type
    (Dict.values (default Dict.empty ns)) = true ->
  no_instance_of QueryProvider_type (default [] provs) = true ->
  exists w1 r tr,
    Pivot X ns provs ts w = (w1, r) /\
    trace w1 = trace w ++ tr /\
    (forall prov acc, ~ In (add_data_queries_to_entities prov acc) tr) /\
    ((forall ti c, raises X (add_ioc_queries_to_entities ti c) = false) ->
     (forall f c dc fc n, raises X (register_pivots f c dc fc n) = false) ->
     r = Ok (length (heap w))).
Proof.
  intros Hns Hprovs. rewrite Pivot_run. cbv zeta.
  unfold init_calls.
  rewrite (data_provs_no_query_providers _ _ Hns Hprovs). simpl map.
  rewrite app_nil_l.
  do 3 eexists. split; [reflexivity|]. cbn [trace]. split; [reflexivity|].
  split.
  - intros prov acc [Hin|Hin]%in_app_or.
    + unfold ti_events in Hin. destruct (_get_provider_by_type _ _ _).
      * destruct Hin.
      * destruct Hin as [|[]]; discriminate.
    + apply calls_made_subset in Hin.
      destruct Hin as [|[|[]]]; discriminate.
  - intros Hioc Hreg. unfold first_raising. simpl.
    rewrite Hioc, Hreg. reflexivity.
Qed.

(** C7.  A construction without a [timespan] argument leaves the rolling
    default: origin the clock reading of the construction, 1 unit ["day"]
    before it and 0 after, so that [start] reads one day before that
    reading and [end] reads it. *)
Theorem default_timespan_is_one_day_back ns provs w w1 self :
  Pivot X ns provs None w = (w1, Ok self) ->
  query_time_of w1 self = Some (QueryTime.of_origin (clock w) 1 0 "day") /\
  start X self w1 = (w1, Ok (clock w - 1 * unit_length X "day")%Z) /\
  end_ X self w1 = (w1, Ok (clock w)).
Proof.
  intros (_ & _ & Hs & _)%Pivot_returns. cbn [initial_query_time] in Hs.
  split; [|split].
  - unfold query_time_of. rewrite Hs. reflexivity.
  - rewrite (start_run X _ _ _ _ Hs). reflexivity.
  - rewrite (end_run X _ _ _ _ Hs). cbn [QueryTime_end].
    rewrite Z.mul_0_l, Z.add_0_r. reflexivity.
Qed.

Lemma init_calls_accessor self reg ns prov acc :
  In (add_data_queries_to_entities prov acc) (init_calls X self reg ns) ->
  acc = bound_get_timespan self.
Proof.
  unfold init_calls. intros [Hin|Hin]%in_app_or.
  - apply in_map_iff in Hin as (q & [= _ <-] & _). reflexivity.
  - destruct Hin as [|[|[]]]; discriminate.
Qed.

(** The data-query registrations of a construction all received the bound
    method of the object under construction. *)
Lemma constructed_accessor ns provs ts0 w w1 self tr prov acc :
  Pivot X ns provs ts0 w = (w1, Ok self) ->
  trace w1 = trace w ++ tr ->
  In (add_data_queries_to_entities prov acc) tr ->
  acc = bound_get_timespan self.
Proof.
  intros (_ & _ & _ & _ & Htr & _)%Pivot_returns Htr'.
  rewrite Htr in Htr'. apply app_inv_head in Htr' as <-.
  intros [Hin|Hin]%in_app_or.
  - unfold ti_events in Hin. destruct (_get_provider_by_type _ _ _).
    + destruct Hin.
    + destruct Hin as [|[]]; discriminate.
  - apply calls_made_subset in Hin.
    apply (init_calls_accessor _ _ _ _ _ Hin).
Qed.

(** C1.  After a construction and any operations, assigning a time span
    [ts] through the [timespan] setter makes [start], [end], [timespan]
    and every [_get_timespan] accessor that the construction handed to
    [add_data_queries_to_entities] return [ts], with no further call to a
    collaborator (the trace is unchanged); in any world the accessor reads
    what the [timespan] property reads there. *)
Theorem timespan_setter_reaches_registered_accessor
    ns provs ts0 w w1 self tr ops ts w2 w3 :
  Pivot X ns provs ts0 w = (w1, Ok self) ->
  trace w1 = trace w ++ tr ->
  w2 = run_ops X self ops w1 ->
  w3 = fst (timespan_setter self ts w2) ->
  timespan_setter self ts w2 = (w3, Ok tt) /\
  trace w3 = trace w2 /\
  start X self w3 = (w3, Ok (TimeSpan.start ts)) /\
  end_ X self w3 = (w3, Ok (TimeSpan.end_ ts)) /\
  timespan X self w3 = (w3, Ok ts) /\
  (forall prov acc,
      In (add_data_queries_to_entities prov acc) tr ->
      call_callable X acc w3 = (w3, Ok ts) /\
      forall w', call_callable X acc w' = timespan X self w').
Proof.
  intros Hrun Htr -> ->.
  pose proof (run_ops_pivot_at X ops _ _ _ _
                (Pivot_pivot_at X _ _ _ _ _ _ Hrun)) as [[q Hs] _].
  unfold timespan_setter. rewrite (set_query_time_run _ _ _ _ _ Hs).
  cbn [fst].
  set (w3 := {| heap := _ |}).
  assert (Hs3 : heap w3 !! self =
                Some (PivotObj (Some (QueryTime.of_timespan ts))
                        (Some (S self)))).
  { apply (lookup_after_store _ _ _ _ Hs). }
  assert (Hspan : timespan X self w3 = (w3, Ok ts)).
  { rewrite (timespan_run X _ _ _ _ Hs3).
    cbn [QueryTime_start QueryTime_end].
    rewrite timespan_eta. reflexivity. }
  split; [reflexivity|]. split; [reflexivity|].
  split; [apply (start_run X _ _ _ _ Hs3)|].
  split; [apply (end_run X _ _ _ _ Hs3)|].
  split; [exact Hspan|].
  intros prov acc Hin.
  rewrite (constructed_accessor _ _ _ _ _ _ _ _ _ Hrun Htr Hin).
  split; [exact Hspan|reflexivity].
Qed.

(** C8, as amended.  The [providers] accessor returns the registry
    dictionary itself: reading it changes nothing, and a key set through
    the returned mapping is in the registry and is what [get_provider]
    then returns for that key, the other keys keeping their providers. *)
Theorem providers_returns_the_registry_itself w self d m k v :
  pivot_at w self d m ->
  providers self w = (w, Ok d) /\
  exists w',
    dict_setitem d k v w = (w', Ok tt) /\
    registry_of w' self = Some (Dict.setitem m k v) /\
    get_provider self k w' = (w', Ok (Some v)) /\
    (forall k', k' <> k ->
       get_provider self k' w' = (w', Ok (Dict.get m k'))).
Proof.
  intros [[q Hs] Hd]. split.
  - apply (get_providers_run _ _ _ _ Hs).
  - unfold dict_setitem.
    rewrite (bind_run_ok _ _ _ _ _ (dict_load_run _ _ _ Hd)).
    eexists. split; [reflexivity|].
    set (w' := {| heap := _ |}).
    assert (Hp : pivot_at w' self d (Dict.setitem m k v)).
    { split; unfold w'; cbn [heap].
      - exists q. rewrite list_lookup_insert_ne; [exact Hs|].
        intros ->. congruence.
      - apply list_lookup_insert_eq, (lookup_lt_Some _ _ _ Hd). }
    split; [apply (registry_of_pivot_at _ _ _ _ Hp)|]. split.
    + rewrite (get_provider_pivot_at _ _ _ _ k Hp), get_setitem_eq.
      reflexivity.
    + intros k' Hk'.
      rewrite (get_provider_pivot_at _ _ _ _ k' Hp), get_setitem_ne
        by congruence.
      reflexivity.
Qed.

(** C9.  After a construction, and after any sequence of operations of the
    environment, [get_provider("TILookup")] returns a TI lookup, never
    [None]. *)
Theorem TILookup_always_registered ns provs ts w w1 self ops w2 :
  Pivot X ns provs ts w = (w1, Ok self) ->
  w2 = run_ops X self ops w1 ->
  exists t, get_provider self "TILookup" w2 = (w2, Ok (Some (TI t))).
Proof.
  intros Hrun ->.
  pose proof (run_ops_pivot_at X ops _ _ _ _
                (Pivot_pivot_at X _ _ _ _ _ _ Hrun)) as Hp.
  destruct (all_providers_into_TILookup_is_TI Dict.empty ns provs) as [t Ht].
  exists t. rewrite (get_provider_pivot_at _ _ _ _ "TILookup" Hp), Ht.
  reflexivity.
Qed.

(** C10.  [edit_query_time(units)] without a [timespan]: when [units]
    differs from the units of the current query time, that query time is
    replaced by a rolling window of 1 [units] back from the clock reading
    and 0 after, and this new one is displayed; when [units] is the same,
    the heap is unchanged and the current query time is displayed. *)
Theorem edit_query_time_resets_on_other_units w self q p units :
  heap w !! self = Some (PivotObj (Some q) p) ->
  exists w',
    edit_query_time X self units None w = (w', Ok tt) /\
    (QueryTime_units X q <> units ->
     query_time_of w' self
     = Some (QueryTime.of_origin (clock w) 1 0 units) /\
     trace w' =
       trace w ++
       [QueryTime_display (QueryTime.of_origin (clock w) 1 0 units)] /\
     start X self w' = (w', Ok (clock w - 1 * unit_length X units)%Z) /\
     end_ X self w' = (w', Ok (clock w))) /\
    (QueryTime_units X q = units ->
     heap w' = heap w /\
     query_time_of w' self = Some q /\
     trace w' = trace w ++ [QueryTime_display q]).
Proof.
  intros Hs. rewrite (edit_query_time_run X _ _ _ _ units None Hs).
  eexists. split; [reflexivity|].
  unfold edited_query_time.
  set (q1 := QueryTime.of_origin (clock w) 1 0 units).
  destruct (String.eqb_spec (QueryTime_units X q) units) as [Heq|Hne].
  - split; [intros Hne; contradiction|]. intros _. cbn [heap trace].
    rewrite (list_insert_id _ _ _ Hs). unfold query_time_of. cbn [heap].
    rewrite Hs. auto.
  - split; [|intros Heq; contradiction]. intros _.
    set (w' := {| heap := _ |}).
    assert (Hs' : heap w' !! self = Some (PivotObj (Some q1) p))
      by apply (lookup_after_store _ _ _ _ Hs).
    split; [unfold query_time_of; rewrite Hs'; reflexivity|].
    split; [reflexivity|]. split.
    + apply (start_run X _ _ _ _ Hs').
    + rewrite (end_run X _ _ _ _ Hs'). cbn [QueryTime_end q1].
      rewrite Z.mul_0_l, Z.add_0_r. reflexivity.
Qed.

(** A construction returns the new environment whenever none of the calls
    it makes raises. *)
Lemma Pivot_returns_when_no_call_raises ns provs ts w :
  (forall ev, raises X ev = false) ->
  exists w1, Pivot X ns provs ts w = (w1, Ok (length (heap w))).
Proof.
  intros Hquiet. rewrite Pivot_run. cbv zeta.
  assert (Hnone : forall evs, first_raising X evs = None).
  { unfold first_raising. induction evs as [|ev evs IH]; simpl.
    - reflexivity.
    - rewrite Hquiet. exact IH. }
  rewrite Hnone. eexists. reflexivity.
Qed.
End Statements.


(** ** The statements at sample inputs *)

Lemma timespan_setter_reaches_registered_accessor_witness :
  let tr := trace Sample.w_both in
  let w2 := run_ops Sample.quiet 0 Sample.ops Sample.w_both in
  let w3 := fst (timespan_setter 0 Sample.span w2) in
  Pivot Sample.quiet (Some Sample.ns_ab) (Some Sample.provs_c) None Sample.w0
  = (Sample.w_both, Ok 0) /\
  In (add_data_queries_to_entities Sample.qp_c (bound_get_timespan 0)) tr /\
  start Sample.quiet 0 w3 = (w3, Ok 500%Z) /\
  end_ Sample.quiet 0 w3 = (w3, Ok 900%Z) /\
  timespan Sample.quiet 0 w3 = (w3, Ok Sample.span) /\
  call_callable Sample.quiet (bound_get_timespan 0) w3 = (w3, Ok Sample.span).
Proof.
  intros tr w2 w3.
  assert (Hrun :
    Pivot Sample.quiet (Some Sample.ns_ab) (Some Sample.provs_c) None Sample.w0
    = (Sample.w_both, Ok 0)) by reflexivity.
  assert (Hin :
    In (add_data_queries_to_entities Sample.qp_c (bound_get_timespan 0)) tr)
    by (vm_compute; auto).
  destruct (timespan_setter_reaches_registered_accessor Sample.quiet
              _ _ _ _ _ _ tr Sample.ops Sample.span w2 w3
              Hrun eq_refl eq_refl eq_refl)
    as (_ & _ & Hstart & Hend & Hspan & Hacc).
  destruct (Hacc _ _ Hin) as [Hcall _].
  repeat split; assumption.
Defined.

Lemma explicit_provider_overrides_namespace_witness :
  Pivot Sample.quiet (Some Sample.ns_ab) (Some Sample.provs_c) None Sample.w0
  = (Sample.w_both, Ok 0) /\
  get_provider 0 "LogAnalytics" Sample.w_both
  = (Sample.w_both, Ok (Some (QP Sample.qp_c))) /\
  get_provider 0 "TILookup" Sample.w_both
  = (Sample.w_both, Ok (Some (TI Sample.ti_2))).
Proof.
  assert (Hrun :
    Pivot Sample.quiet (Some Sample.ns_ab) (Some Sample.provs_c) None Sample.w0
    = (Sample.w_both, Ok 0)) by reflexivity.
  destruct (explicit_provider_overrides_namespace Sample.quiet
              _ _ _ _ _ _ Hrun) as [Hqp Hti].
  split; [exact Hrun|]. split.
  - apply (Hqp "LogAnalytics" Sample.qp_a [] Sample.qp_c
             [TI Sample.ti_2; TI Sample.ti_3]);
      [left|..]; first [reflexivity|discriminate].
  - apply (Hti Sample.ti_1 [QP Sample.qp_c] Sample.ti_2 [TI Sample.ti_3]);
      [do 3 right; left|..]; reflexivity.
Defined.

Lemma later_namespace_provider_wins_witness :
  Pivot Sample.quiet (Some Sample.ns_ab) None None Sample.w0
  = (Sample.w_ns, Ok 0) /\
  get_provider 0 "LogAnalytics" Sample.w_ns
  = (Sample.w_ns, Ok (Some (QP Sample.qp_b))).
Proof.
  assert (Hrun :
    Pivot Sample.quiet (Some Sample.ns_ab) None None Sample.w0
    = (Sample.w_ns, Ok 0)) by reflexivity.
  split; [exact Hrun|].
  apply (later_namespace_provider_wins Sample.quiet _ _ _ _ _ _
           "LogAnalytics" [] Sample.qp_a [Other 0] Sample.qp_b
           [TI Sample.ti_1] Hrun);
    first [reflexivity|discriminate].
Defined.

(** C4, as stated, fails for TI lookups of the explicit list: the first one
    is recorded, not the last. *)
Lemma explicit_TILookup_first_wins :
  Pivot Sample.quiet None (Some [TI Sample.ti_1; TI Sample.ti_2]) None
    Sample.w0 = (Sample.w_ti, Ok 0) /\
  list.last [TI Sample.ti_1; TI Sample.ti_2] = Some (TI Sample.ti_2) /\
  get_provider 0 "TILookup" Sample.w_ti
  = (Sample.w_ti, Ok (Some (TI Sample.ti_1))) /\
  get_provider 0 "TILookup" Sample.w_ti
  <> (Sample.w_ti, Ok (Some (TI Sample.ti_2))).
Proof.
  repeat split; try reflexivity.
  vm_compute. discriminate.
Qed.

Lemma last_assignment_wins_within_a_source_witness :
  Pivot Sample.quiet (Some Sample.ns_ab) (Some Sample.provs_c) None Sample.w0
  = (Sample.w_both, Ok 0) /\
  (exists reg,
     registry_of Sample.w_both 0 = Some reg /\ NoDup (Dict.keys reg)) /\
  get_provider 0 "LogAnalytics" Sample.w_both
  = (Sample.w_both, Ok (Some (QP Sample.qp_c))) /\
  get_provider 0 "TILookup" Sample.w_both
  = (Sample.w_both, Ok (Some (TI Sample.ti_2))).
Proof.
  assert (Hrun :
    Pivot Sample.quiet (Some Sample.ns_ab) (Some Sample.provs_c) None Sample.w0
    = (Sample.w_both, Ok 0)) by reflexivity.
  destruct (last_assignment_wins_within_a_source Sample.quiet
              _ _ _ _ _ _ Hrun) as (Hreg & _ & Hqp & _ & Hti).
  split; [exact Hrun|]. split; [exact Hreg|]. split.
  - apply (Hqp "LogAnalytics" [] Sample.qp_c
             [TI Sample.ti_2; TI Sample.ti_3]);
      first [reflexivity|discriminate].
  - apply (Hti [QP Sample.qp_c] Sample.ti_2 [TI Sample.ti_3]); reflexivity.
Defined.

Lemma default_TILookup_when_none_found_witness :
  Pivot Sample.quiet (Some Sample.ns_x) None None Sample.w0
  = (Sample.w_x, Ok 0) /\
  get_provider 0 "TILookup" Sample.w_x
  = (Sample.w_x, Ok (Some (TI TILookup_default))) /\
  exists tr, trace Sample.w_x = trace Sample.w0 ++ tr /\ In TILookup_new tr.
Proof.
  assert (Hrun :
    Pivot Sample.quiet (Some Sample.ns_x) None None Sample.w0
    = (Sample.w_x, Ok 0)) by reflexivity.
  split; [exact Hrun|].
  apply (default_TILookup_when_none_found Sample.quiet _ _ _ _ _ _ Hrun);
    reflexivity.
Defined.

Lemma zero_query_providers_is_no_error_witness :
  exists w1 r tr,
    Pivot Sample.quiet (Some Sample.ns_x) None None Sample.w0 = (w1, r) /\
    trace w1 = trace Sample.w0 ++ tr /\
    (forall prov acc, ~ In (add_data_queries_to_entities prov acc) tr) /\
    r = Ok 0.
Proof.
  destruct (zero_query_providers_is_no_error Sample.quiet
              (Some Sample.ns_x) None None Sample.w0 eq_refl eq_refl)
    as (w1 & r & tr & Hrun & Htr & Hno & Hok).
  exists w1, r, tr. repeat split; try assumption.
  apply Hok; reflexivity.
Defined.

Lemma default_timespan_is_one_day_back_witness :
  Pivot Sample.quiet None None None Sample.w0 = (Sample.w_none, Ok 0) /\
  query_time_of Sample.w_none 0
  = Some (QueryTime.of_origin 1000000%Z 1%Z 0%Z "day") /\
  start Sample.quiet 0 Sample.w_none
  = (Sample.w_none, Ok (1000000 - 86400)%Z) /\
  end_ Sample.quiet 0 Sample.w_none = (Sample.w_none, Ok 1000000%Z).
Proof.
  assert (Hrun :
    Pivot Sample.quiet None None None Sample.w0 = (Sample.w_none, Ok 0))
    by reflexivity.
  split; [exact Hrun|].
  apply (default_timespan_is_one_day_back Sample.quiet _ _ _ _ _ Hrun).
Defined.

(** C8, as stated, fails: the mapping that [providers] returns is the
    registry itself, and a key set through it is read back by
    [get_provider]. *)
Lemma providers_mapping_is_not_a_copy :
  let mutated :=
    fst ((d <-- providers 0 ;; dict_setitem d "Splunk" (QP Sample.qp_s))
           Sample.w_none) in
  Pivot Sample.quiet None None None Sample.w0 = (Sample.w_none, Ok 0) /\
  get_provider 0 "Splunk" Sample.w_none = (Sample.w_none, Ok None) /\
  get_provider 0 "Splunk" mutated = (mutated, Ok (Some (QP Sample.qp_s))) /\
  registry_of mutated 0 <> registry_of Sample.w_none 0.
Proof.
  repeat split; try reflexivity.
  vm_compute. discriminate.
Qed.

Lemma providers_returns_the_registry_itself_witness :
  pivot_at Sample.w_none 0 1 [("TILookup", TI TILookup_default)] /\
  providers 0 Sample.w_none = (Sample.w_none, Ok 1) /\
  exists w',
    dict_setitem 1 "Splunk" (QP Sample.qp_s) Sample.w_none = (w', Ok tt) /\
    get_provider 0 "Splunk" w' = (w', Ok (Some (QP Sample.qp_s))).
Proof.
  assert (Hp :
    pivot_at Sample.w_none 0 1 [("TILookup", TI TILookup_default)]).
  { split; [eexists|]; reflexivity. }
  destruct (providers_returns_the_registry_itself Sample.w_none 0 1 _
              "Splunk" (QP Sample.qp_s) Hp)
    as (Hprov & w' & Hset & _ & Hget & _).
  split; [exact Hp|]. split; [exact Hprov|].
  exists w'. split; assumption.
Defined.

Lemma TILookup_always_registered_witness :
  Pivot Sample.quiet None None None Sample.w0 = (Sample.w_none, Ok 0) /\
  exists t,
    get_provider 0 "TILookup"
      (run_ops Sample.quiet 0 Sample.ops Sample.w_none)
    = (run_ops Sample.quiet 0 Sample.ops Sample.w_none, Ok (Some (TI t))).
Proof.
  assert (Hrun :
    Pivot Sample.quiet None None None Sample.w0 = (Sample.w_none, Ok 0))
    by reflexivity.
  split; [exact Hrun|].
  apply (TILookup_always_registered Sample.quiet _ _ _ _ _ _ Sample.ops _
           Hrun eq_refl).
Defined.

Lemma edit_query_time_resets_on_other_units_witness :
  heap Sample.w_none !! 0
  = Some (PivotObj (Some (QueryTime.of_origin 1000000%Z 1%Z 0%Z "day"))
            (Some 1)) /\
  (exists w',
     edit_query_time Sample.quiet 0 "hour" None Sample.w_none = (w', Ok tt) /\
     query_time_of w' 0 = Some (QueryTime.of_origin 1000000%Z 1%Z 0%Z "hour") /\
     start Sample.quiet 0 w' = (w', Ok (1000000 - 3600)%Z)) /\
  (exists w',
     edit_query_time Sample.quiet 0 "day" None Sample.w_none = (w', Ok tt) /\
     heap w' = heap Sample.w_none).
Proof.
  assert (Hs :
    heap Sample.w_none !! 0
    = Some (PivotObj (Some (QueryTime.of_origin 1000000%Z 1%Z 0%Z "day"))
              (Some 1)))
    by reflexivity.
  split; [exact Hs|]. split.
  - destruct (edit_query_time_resets_on_other_units Sample.quiet
                _ _ _ _ "hour" Hs) as (w' & Hrun & Hother & _).
    destruct Hother as (Hqt & _ & Hstart & _); [discriminate|].
    exists w'. repeat split; assumption.
  - destruct (edit_query_time_resets_on_other_units Sample.quiet
                _ _ _ _ "day" Hs) as (w' & Hrun & _ & Hsame).
    destruct Hsame as (Hheap & _); [reflexivity|].
    exists w'. split; assumption.
Defined.


(** * Further properties of the module *)

(** ** Effects on the heap *)

Section HeapEffects.
Context {A B : Type}.

Lemma no_write_ret (a : A) : no_write (ret a).
Proof. intros w. reflexivity. Qed.

Lemma no_write_raise e : no_write (@raise A e).
Proof. intros w. reflexivity. Qed.

Lemma no_write_bind (m : M A) (f : A -> M B) :
  no_write m -> (forall a, no_write (f a)) -> no_write (bind m f).
Proof.
  intros Hm Hf w. unfold bind. specialize (Hm w).
  destruct (m w) as [w' [a|e]]; cbn [fst] in *.
  - rewrite Hf. exact Hm.
  - exact Hm.
Qed.

Lemma writes_only_bind self (m : M A) (f : A -> M B) :
  writes_only self m -> (forall a, writes_only self (f a)) ->
  writes_only self (bind m f).
Proof.
  intros Hm Hf w. unfold bind. specialize (Hm w).
  destruct (m w) as [w' [a|e]]; cbn [fst] in *; [|exact Hm].
  destruct Hm as [Hlen Hm], (Hf a w') as [Hlen' Hf'].
  split; [congruence|]. intros l Hl. rewrite Hf', Hm by exact Hl.
  reflexivity.
Qed.

Lemma no_write_writes_only self (m : M A) :
  no_write m -> writes_only self m.
Proof.
  intros Hm w. split; [|intros l _]; rewrite (Hm w); reflexivity.
Qed.
End HeapEffects.

Lemma no_write_load l : no_write (load l).
Proof. intros w. unfold load. destruct (heap w !! l); reflexivity. Qed.

Lemma no_write_emit ev : no_write (emit ev).
Proof. intros w. reflexivity. Qed.

Lemma no_write_utcnow : no_write utcnow.
Proof. intros w. reflexivity. Qed.

Lemma no_write_tick dt : no_write (tick dt).
Proof. intros w. reflexivity. Qed.

Lemma writes_only_store self o : writes_only self (store self o).
Proof.
  intros w. cbn [store fst heap]. split.
  - apply length_insert.
  - intros l Hl. apply list_lookup_insert_ne. congruence.
Qed.

Lemma no_write_call X ev : no_write (call X ev).
Proof.
  unfold call. apply no_write_bind; [apply no_write_emit|].
  intros _. destruct (raises X ev);
    [apply no_write_raise|apply no_write_ret].
Qed.

(** Solves [no_write] and [writes_only] goals by following the structure of
    the computation. *)
Ltac effects :=
  repeat
    first
      [ apply no_write_ret | apply no_write_raise | apply no_write_load
      | apply no_write_emit | apply no_write_utcnow | apply no_write_tick
      | apply no_write_call | apply writes_only_store
      | apply no_write_bind; [|intros ?]
      | apply writes_only_bind; [|intros ?]
      | match goal with
        | |- no_write (match ?x with _ => _ end) => destruct x
        | |- writes_only _ (match ?x with _ => _ end) => destruct x
        | |- no_write (if ?x then _ else _) => destruct x
        | |- writes_only _ (if ?x then _ else _) => destruct x
        | |- writes_only _ _ => apply no_write_writes_only
        end ].

Lemma no_write_get_query_time self : no_write (get_query_time self).
Proof. unfold get_query_time. effects. Qed.

Lemma no_write_get_providers self : no_write (get_providers self).
Proof. unfold get_providers. effects. Qed.

Lemma no_write_get_provider self k : no_write (get_provider self k).
Proof. unfold get_provider, get_providers, dict_load. effects. Qed.

Lemma no_write_start X self : no_write (start X self).
Proof. unfold start, get_query_time. effects. Qed.

Lemma no_write_end X self : no_write (end_ X self).
Proof. unfold end_, get_query_time. effects. Qed.

Lemma writes_only_set_query_time self q :
  writes_only self (set_query_time self q).
Proof. unfold set_query_time. effects. Qed.

Lemma writes_only_edit_query_time X self units ts :
  writes_only self (edit_query_time X self units ts).
Proof.
  unfold edit_query_time, _set_default_query_time, set_query_time,
    get_query_time.
  effects.
Qed.

(** The operations that keep [_query_time] write nothing. *)
Lemma run_op_no_write X self op :
  keeps_query_time op = true -> no_write (run_op X self op).
Proof.
  destruct op; try discriminate; intros _; cbn [run_op];
    unfold providers, get_provider, get_providers, dict_load, timespan,
      _get_timespan, start, end_, get_query_time,
      register_pivot_providers;
    effects.
Qed.

(** An operation of the environment at [self] changes no other object. *)
Lemma run_op_writes_only X self op : writes_only self (run_op X self op).
Proof.
  destruct (keeps_query_time op) eqn:Hop.
  - apply no_write_writes_only, run_op_no_write, Hop.
  - destruct op; try discriminate; cbn [run_op].
    + apply writes_only_edit_query_time.
    + apply writes_only_set_query_time.
Qed.

Lemma run_ops_writes_only X self ops w :
  length (heap (run_ops X self ops w)) = length (heap w) /\
  forall l, l <> self -> heap (run_ops X self ops w) !! l = heap w !! l.
Proof.
  unfold run_ops. revert w.
  induction ops as [|op ops IH]; intros w; simpl; [auto|].
  destruct (IH (fst (run_op X self op w))) as [Hlen Hl],
    (run_op_writes_only X self op w) as [Hlen' Hl'].
  split; [congruence|]. intros l Hne. rewrite Hl, Hl' by exact Hne.
  reflexivity.
Qed.

Lemma run_ops_no_write X self ops w :
  forallb keeps_query_time ops = true ->
  heap (run_ops X self ops w) = heap w.
Proof.
  unfold run_ops. revert w.
  induction ops as [|op ops IH]; intros w; simpl; [reflexivity|].
  intros [Hop Hops]%andb_true_iff.
  rewrite IH by exact Hops. apply run_op_no_write, Hop.
Qed.

(** ** The time span *)

Section Further.
Variable X : Externals.

(** X1.  A construction given a time span [ts] leaves that span: [start],
    [end] and [timespan] read [ts], whatever the clock says. *)
Theorem construction_with_timespan ns provs ts w w1 self :
  Pivot X ns provs (Some ts) w = (w1, Ok self) ->
  query_time_of w1 self = Some (QueryTime.of_timespan ts) /\
  start X self w1 = (w1, Ok (TimeSpan.start ts)) /\
  end_ X self w1 = (w1, Ok (TimeSpan.end_ ts)) /\
  timespan X self w1 = (w1, Ok ts).
Proof.
  intros (_ & _ & Hs & _)%Pivot_returns. cbn [initial_query_time] in Hs.
  split; [unfold query_time_of; rewrite Hs; reflexivity|].
  split; [apply (start_run X _ _ _ _ Hs)|].
  split; [apply (end_run X _ _ _ _ Hs)|].
  rewrite (timespan_run X _ _ _ _ Hs). cbn [QueryTime_start QueryTime_end].
  rewrite timespan_eta. reflexivity.
Qed.

(** X2.  [edit_query_time] with a [timespan] argument leaves and displays
    that span, whether or not [units] differs from the current units (the
    default window set for other units is replaced at once), and makes no
    other call. *)
Theorem edit_query_time_with_timespan w self q p units ts :
  heap w !! self = Some (PivotObj (Some q) p) ->
  exists w',
    edit_query_time X self units (Some ts) w = (w', Ok tt) /\
    query_time_of w' self = Some (QueryTime.of_timespan ts) /\
    trace w' = trace w ++ [QueryTime_display (QueryTime.of_timespan ts)] /\
    start X self w' = (w', Ok (TimeSpan.start ts)) /\
    end_ X self w' = (w', Ok (TimeSpan.end_ ts)) /\
    timespan X self w' = (w', Ok ts).
Proof.
  intros Hs. rewrite (edit_query_time_run X _ _ _ _ units (Some ts) Hs).
  cbn [edited_query_time]. eexists. split; [reflexivity|].
  set (w' := {| heap := _ |}).
  assert (Hs' : heap w' !! self
                = Some (PivotObj (Some (QueryTime.of_timespan ts)) p))
    by apply (lookup_after_store _ _ _ _ Hs).
  split; [unfold query_time_of; rewrite Hs'; reflexivity|].
  split; [reflexivity|].
  split; [apply (start_run X _ _ _ _ Hs')|].
  split; [apply (end_run X _ _ _ _ Hs')|].
  rewrite (timespan_run X _ _ _ _ Hs'). cbn [QueryTime_start QueryTime_end].
  rewrite timespan_eta. reflexivity.
Qed.



(** X4.  The window a construction sets by default does not roll: as long
    as the time span is neither set nor edited, [start] and [end] keep
    reading against the clock of the construction, however far the clock
    has moved since. *)
Theorem default_window_is_anchored ns provs w w1 self ops w2 :
  Pivot X ns provs None w = (w1, Ok self) ->
  forallb keeps_query_time ops = true ->
  w2 = run_ops X self ops w1 ->
  start X self w2 = (w2, Ok (clock w - 1 * unit_length X "day")%Z) /\
  end_ X self w2 = (w2, Ok (clock w)).
Proof.
  intros (_ & _ & Hs & _)%Pivot_returns Hops ->.
  cbn [initial_query_time] in Hs.
  rewrite <- (run_ops_no_write X self ops w1 Hops) in Hs.
  split.
  - apply (start_run X _ _ _ _ Hs).
  - rewrite (end_run X _ _ _ _ Hs). cbn [QueryTime_end].
    rewrite Z.mul_0_l, Z.add_0_r. reflexivity.
Qed.

(** ** The registry *)

(** X5.  No operation of the environment rebinds or changes its registry:
    after any operations [providers] returns the same dictionary object,
    which holds the same providers, as right after the construction. *)
Theorem operations_keep_the_registry ns provs ts w w1 self ops w2 :
  Pivot X ns provs ts w = (w1, Ok self) ->
  w2 = run_ops X self ops w1 ->
  exists d m,
    providers self w1 = (w1, Ok d) /\ providers self w2 = (w2, Ok d) /\
    registry_of w1 self = Some m /\ registry_of w2 self = Some m /\
    forall k,
      get_provider self k w1 = (w1, Ok (Dict.get m k)) /\
      get_provider self k w2 = (w2, Ok (Dict.get m k)).
Proof.
  intros Hp1%Pivot_pivot_at ->.
  pose proof (run_ops_pivot_at X ops _ _ _ _ Hp1) as Hp2.
  do 2 eexists.
  split; [destruct Hp1 as [[q Hs] _]; apply (get_providers_run _ _ _ _ Hs)|].
  split; [destruct Hp2 as [[q Hs] _]; apply (get_providers_run _ _ _ _ Hs)|].
  split; [apply (registry_of_pivot_at _ _ _ _ Hp1)|].
  split; [apply (registry_of_pivot_at _ _ _ _ Hp2)|].
  intros k. split.
  - apply (get_provider_pivot_at _ _ _ _ k Hp1).
  - apply (get_provider_pivot_at _ _ _ _ k Hp2).
Qed.

(** X6.  Environments do not share state: constructing a second
    environment, and whatever is then done with it, leaves the time span
    and the registry of an environment that existed before as they were;
    the new environment has a dictionary of its own. *)
Theorem environments_are_independent
    w self0 q0 d0 m0 ns provs ts w1 self1 ops w2 :
  heap w !! self0 = Some (PivotObj (Some q0) (Some d0)) ->
  heap w !! d0 = Some (DictObj m0) ->
  Pivot X ns provs ts w = (w1, Ok self1) ->
  w2 = run_ops X self1 ops w1 ->
  self1 <> self0 /\
  (exists d1, providers self1 w2 = (w2, Ok d1) /\ d1 <> d0) /\
  providers self0 w2 = (w2, Ok d0) /\
  (forall k, get_provider self0 k w2 = (w2, Ok (Dict.get m0 k))) /\
  start X self0 w2 = (w2, Ok (QueryTime_start X q0)) /\
  end_ X self0 w2 = (w2, Ok (QueryTime_end X q0)) /\
  call_callable X (bound_get_timespan self0) w2
  = (w2, Ok (TimeSpan.new (QueryTime_start X q0) (QueryTime_end X q0))).
Proof.
  intros Hs0 Hd0 Hrun ->.
  pose proof (lookup_lt_Some _ _ _ Hs0) as Hlt0.
  pose proof (lookup_lt_Some _ _ _ Hd0) as Hltd.
  pose proof (Pivot_pivot_at X _ _ _ _ _ _ Hrun) as Hp1.
  pose proof (run_ops_pivot_at X ops _ _ _ _ Hp1) as [[q1 Hs1] _].
  revert Hrun. rewrite Pivot_run. cbv zeta.
  destruct (first_raising X _); [discriminate|]. intros [= <- <-].
  set (w1 := {| heap := _ |}) in *.
  assert (Hne0 : length (heap w) <> self0) by lia.
  assert (Hned : length (heap w) <> d0) by lia.
  destruct (run_ops_writes_only X (length (heap w)) ops w1) as [_ Hframe].
  assert (Hs2 : heap (run_ops X (length (heap w)) ops w1) !! self0
                = Some (PivotObj (Some q0) (Some d0))).
  { rewrite Hframe by congruence. unfold w1. cbn [heap].
    rewrite lookup_app_l by exact Hlt0. exact Hs0. }
  assert (Hd2 : heap (run_ops X (length (heap w)) ops w1) !! d0
                = Some (DictObj m0)).
  { rewrite Hframe by congruence. unfold w1. cbn [heap].
    rewrite lookup_app_l by exact Hltd. exact Hd0. }
  split; [exact Hne0|].
  split.
  { exists (S (length (heap w))).
    split; [apply (get_providers_run _ _ _ _ Hs1)|lia]. }
  split; [apply (get_providers_run _ _ _ _ Hs2)|].
  split; [intros k; apply (get_provider_run _ _ _ _ _ k Hs2 Hd2)|].
  split; [apply (start_run X _ _ _ _ Hs2)|].
  split; [apply (end_run X _ _ _ _ Hs2)|].
  apply (_get_timespan_run X _ _ _ _ Hs2).
Qed.

(** *** Which keys the registry holds *)

Lemma last_query_provider_for k objs :
  no_query_provider_for k objs = false ->
  exists l1 q l2,
    objs = l1 ++ QP q :: l2 /\ environment q = k /\
    no_query_provider_for k l2 = true.
Proof.
  induction objs as [|o objs IH]; simpl; [discriminate|].
  destruct (no_query_provider_for k objs) eqn:Hrest.
  - rewrite andb_true_r. destruct o as [q| |]; try discriminate.
    intros Hq%negb_false_iff%String.eqb_eq.
    exists [], q, objs. auto.
  - intros _. destruct (IH eq_refl) as (l1 & q & l2 & -> & Hq & Hl2).
    exists (o :: l1), q, l2. auto.
Qed.

Lemma get_query_provider_dict_None k objs :
  Dict.get (query_provider_dict objs) k = None <->
  no_query_provider_for k objs = true.
Proof.
  split; [|apply get_query_provider_dict_none].
  destruct (no_query_provider_for k objs) eqn:Hno; [reflexivity|].
  destruct (last_query_provider_for _ _ Hno) as (l1 & q & l2 & -> & <- & Hl2).
  rewrite (get_query_provider_dict_last _ _ _ Hl2). discriminate.
Qed.

(** X7.  [get_provider] returns [None], and raises nothing, exactly for
    the names that are neither ["TILookup"] nor the environment of a query
    provider of the namespace or of the explicit list. *)
Theorem get_provider_None_iff ns provs ts w w1 self k :
  Pivot X ns provs ts w = (w1, Ok self) ->
  get_provider self k w1 = (w1, Ok None) <->
  k <> "TILookup" /\
  no_query_provider_for k (Dict.values (default Dict.empty ns)) = true /\
  no_query_provider_for k (default [] provs) = true.
Proof.
  intros Hrun. rewrite (get_provider_constructed X _ _ _ _ _ _ k Hrun).
  split.
  - intros [= Hget].
    destruct (decide (k = "TILookup")) as [->|Hk].
    { rewrite get_all_providers_into_TILookup in Hget. discriminate. }
    rewrite get_all_providers_into_other, get_query_providers_into in Hget
      by exact Hk.
    destruct (Dict.get (query_provider_dict (default [] provs)) k)
      eqn:Hp; [discriminate|].
    destruct (Dict.get (query_provider_dict
                          (Dict.values (default Dict.empty ns))) k)
      eqn:Hn; [discriminate|].
    apply get_query_provider_dict_None in Hp, Hn. auto.
  - intros (Hk & Hn & Hp).
    rewrite get_all_providers_into_other, get_query_providers_into
      by exact Hk.
    rewrite (get_query_provider_dict_none _ _ Hp),
      (get_query_provider_dict_none _ _ Hn).
    reflexivity.
Qed.

(** *** Where the stored providers come from *)

Lemma get_query_provider_dict_Some k objs v :
  Dict.get (query_provider_dict objs) k = Some v ->
  exists q, v = QP q /\ environment q = k /\ In (QP q) objs.
Proof.
  intros Hget.
  destruct (no_query_provider_for k objs) eqn:Hno.
  { rewrite (get_query_provider_dict_none _ _ Hno) in Hget. discriminate. }
  destruct (last_query_provider_for _ _ Hno) as (l1 & q & l2 & -> & <- & Hl2).
  rewrite (get_query_provider_dict_last _ _ _ Hl2) in Hget.
  injection Hget as <-. exists q. split; [reflexivity|].
  split; [reflexivity|]. apply in_or_app. right. left. reflexivity.
Qed.

Lemma get_provider_by_type_In ty ns provs o :
  _get_provider_by_type ty ns provs = Some o ->
  In o (default [] provs) \/ In o (Dict.values (default Dict.empty ns)).
Proof.
  unfold _get_provider_by_type.
  set (f := fun prov => isinstance prov ty).
  assert (Hns :
    (if truthy_namespace ns
     then match List.filter f (Dict.values (default Dict.empty ns)) with
          | [] => None
          | _ :: _ =>
              list.last (List.filter f (Dict.values (default Dict.empty ns)))
          end
     else None) = Some o ->
    In o (Dict.values (default Dict.empty ns))).
  { destruct (truthy_namespace ns); [|discriminate].
    destruct (List.filter f _) eqn:Hf; [discriminate|].
    intros Hl%last_Some_elem_of. rewrite <- Hf in Hl.
    apply list_elem_of_In, List.filter_In in Hl as [Hl _]. exact Hl. }
  destruct (truthy_providers provs); [|auto].
  destruct (List.filter f (default [] provs)) as [|p ps] eqn:Hf; [auto|].
  intros [= ->]. left.
  assert (Hin : In o (List.filter f (default [] provs)))
    by (rewrite Hf; left; reflexivity).
  apply List.filter_In in Hin as [Hin _]. exact Hin.
Qed.

(** X8.  Whatever [get_provider] returns was supplied by the caller or is
    the TI lookup built by [TILookup()]: under an environment name it is a
    query provider of that environment found in the explicit list or in
    the namespace, and under ["TILookup"] it is a TI lookup, found there
    or built.  Objects of other kinds in a namespace are never
    registered. *)
Theorem stored_providers_come_from_the_sources
    ns provs ts w w1 self k v :
  Pivot X ns provs ts w = (w1, Ok self) ->
  get_provider self k w1 = (w1, Ok (Some v)) ->
  (k = "TILookup" /\
   exists t, v = TI t /\
     (t = TILookup_default \/ In v (default [] provs) \/
      In v (Dict.values (default Dict.empty ns)))) \/
  (k <> "TILookup" /\
   exists q, v = QP q /\ environment q = k /\
     (In v (default [] provs) \/
      In v (Dict.values (default Dict.empty ns)))).
Proof.
  intros Hrun. rewrite (get_provider_constructed X _ _ _ _ _ _ k Hrun).
  intros [= Hget].
  destruct (decide (k = "TILookup")) as [->|Hk]; [left|right].
  - split; [reflexivity|].
    rewrite get_all_providers_into_TILookup in Hget. injection Hget as <-.
    destruct (_get_provider_by_type TILookup_type ns provs) as [o|] eqn:Ho;
      simpl.
    + pose proof (get_provider_by_type_isinstance _ _ _ _ Ho) as Hty.
      apply get_provider_by_type_In in Ho.
      destruct o as [|t|]; try discriminate. exists t. auto.
    + exists TILookup_default. auto.
  - split; [exact Hk|].
    rewrite get_all_providers_into_other, get_query_providers_into in Hget
      by exact Hk.
    destruct (Dict.get (query_provider_dict (default [] provs)) k)
      as [v'|] eqn:Hp.
    + injection Hget as ->.
      apply get_query_provider_dict_Some in Hp as (q & -> & Hq & Hin).
      exists q. auto.
    + destruct (Dict.get (query_provider_dict
                            (Dict.values (default Dict.empty ns))) k)
        as [v'|] eqn:Hn; [|discriminate].
      injection Hget as ->.
      apply get_query_provider_dict_Some in Hn as (q & -> & Hq & Hin).
      exists q. auto.
Qed.

(** *** The calls of a construction *)

Lemma in_setitem {V} (d : Dict.t V) k v kv :
  In kv (Dict.setitem d k v) -> kv = (k, v) \/ In kv d.
Proof.
  induction d as [|[k0 v0] d IH]; simpl.
  - intros [<-|[]]. left. reflexivity.
  - destruct (String.eqb_spec k0 k) as [->|Hne]; simpl.
    + intros [<-|Hin]; auto.
    + intros [<-|Hin]; auto. destruct (IH Hin); auto.
Qed.

Lemma in_update {V} (P : string * V -> Prop) (d o : Dict.t V) :
  (forall kv, In kv d -> P kv) -> (forall kv, In kv o -> P kv) ->
  forall kv, In kv (Dict.update d o) -> P kv.
Proof.
  unfold Dict.update. revert d.
  induction o as [|[k v] o IH]; intros d Hd Ho; simpl; [exact Hd|].
  apply IH.
  - intros kv [->|Hin]%in_setitem; [apply Ho; left; reflexivity|auto].
  - intros kv Hin. apply Ho. right. exact Hin.
Qed.

Lemma In_get {V} (d : Dict.t V) k v :
  NoDup (Dict.keys d) -> In (k, v) d -> Dict.get d k = Some v.
Proof.
  induction d as [|[k0 v0] d IH]; simpl; [intros _ []|].
  intros [Hk0 Hd]%list.NoDup_cons [[= -> ->]|Hin].
  - rewrite String.eqb_refl. reflexivity.
  - destruct (String.eqb_spec k0 k) as [->|_]; [|auto].
    exfalso. apply Hk0, list_elem_of_In, in_map_iff.
    exists (k, v). auto.
Qed.

Lemma keyed_query_provider_dict objs kv :
  In kv (query_provider_dict objs) -> keyed_by_environment kv.
Proof.
  rewrite query_provider_dict_unfold. revert kv.
  apply in_update; [intros kv []|].
  intros kv Hin. apply list_elem_of_In, list_elem_of_omap in Hin
    as (o & _ & Ho).
  destruct o as [q| |]; try discriminate. injection Ho as <-.
  intros q' [= <-]. reflexivity.
Qed.

Lemma keyed_all_providers_into ns provs kv :
  In kv (all_providers_into Dict.empty ns provs) -> keyed_by_environment kv.
Proof.
  unfold all_providers_into. intros [->|Hin]%in_setitem.
  - intros q Hq. cbn [snd] in Hq.
    destruct (_get_provider_by_type TILookup_type ns provs) as [o|] eqn:Ho;
      simpl in Hq; [|discriminate].
    apply get_provider_by_type_isinstance in Ho. subst o. discriminate.
  - revert kv Hin. unfold query_providers_into.
    destruct (truthy_providers provs), (truthy_namespace ns);
      repeat (apply in_update;
              [|intros kv; apply keyed_query_provider_dict]);
      intros kv [].
Qed.

Lemma in_data_provs q vals : In q (data_provs vals) <-> In (QP q) vals.
Proof.
  unfold data_provs. rewrite in_flat_map. split.
  - intros (o & Ho & Hq).
    destruct o as [q0| |]; simpl in Hq;
      [destruct Hq as [->|[]]; exact Ho|destruct Hq|destruct Hq].
  - intros Hin. exists (QP q). split; [exact Hin|left; reflexivity].
Qed.

Lemma stored_data_prov ns provs q :
  In q (data_provs
          (Dict.values (all_providers_into Dict.empty ns provs))) ->
  Dict.get (all_providers_into Dict.empty ns provs) (environment q)
  = Some (QP q).
Proof.
  intros Hin%in_data_provs. apply in_map_iff in Hin as ([k v] & Hv & Hin).
  cbn [snd] in Hv. subst v.
  rewrite <- (keyed_all_providers_into _ _ _ Hin q eq_refl).
  apply In_get; [|exact Hin].
  apply NoDup_all_providers_into, NoDup_nil_2.
Qed.

(** X9.  Data queries are registered only for the providers that won a
    place in the registry: each [add_data_queries_to_entities] call of a
    construction is for the provider that [get_provider] returns for its
    environment, so a provider that was overridden gets no registration. *)
Theorem data_queries_only_for_stored_providers
    ns provs ts w w1 self tr prov acc :
  Pivot X ns provs ts w = (w1, Ok self) ->
  trace w1 = trace w ++ tr ->
  In (add_data_queries_to_entities prov acc) tr ->
  get_provider self (environment prov) w1 = (w1, Ok (Some (QP prov))).
Proof.
  intros Hrun Htr' Hin.
  rewrite (get_provider_constructed X _ _ _ _ _ _ _ Hrun).
  apply Pivot_returns in Hrun as (_ & _ & _ & _ & Htr & _).
  rewrite Htr in Htr'. apply app_inv_head in Htr' as <-.
  apply in_app_or in Hin as [Hin|Hin].
  { unfold ti_events in Hin. destruct (_get_provider_by_type _ _ _).
    - destruct Hin.
    - destruct Hin as [|[]]; discriminate. }
  apply calls_made_subset in Hin. unfold init_calls in Hin.
  apply in_app_or in Hin as [Hin|Hin].
  - apply in_map_iff in Hin as (q & [= -> _] & Hq).
    rewrite (stored_data_prov _ _ _ Hq). reflexivity.
  - destruct Hin as [|[|[]]]; discriminate.
Qed.

Lemma calls_made_all evs :
  first_raising X evs = None -> calls_made X evs = evs.
Proof.
  unfold first_raising.
  induction evs as [|ev evs IH]; simpl; [reflexivity|].
  destruct (raises X ev); [discriminate|]. intros H. rewrite IH by exact H.
  reflexivity.
Qed.

Lemma environments_sublist_keys (reg : Dict.t PyObj) :
  (forall kv, In kv reg -> keyed_by_environment kv) ->
  sublist (map environment (data_provs (Dict.values reg))) (Dict.keys reg).
Proof.
  induction reg as [|[k v] reg IH]; intros Hreg; simpl.
  - constructor.
  - assert (Hrest : forall kv, In kv reg -> keyed_by_environment kv)
      by (intros kv Hin; apply Hreg; right; exact Hin).
    destruct v as [q| |]; simpl.
    + pose proof (Hreg (k, QP q) (or_introl eq_refl) q eq_refl) as Hk.
      cbn [fst] in Hk. subst k. apply sublist_skip, IH, Hrest.
    + apply sublist_cons, IH, Hrest.
    + apply sublist_cons, IH, Hrest.
Qed.

(** X10.  A construction that returns has made these calls, in this order:
    [TILookup()] when no TI lookup was found; one
    [add_data_queries_to_entities] per query provider of the registry, in
    registry order and at most one per environment, each with the bound
    [_get_timespan] of the new environment; [add_ioc_queries_to_entities]
    with the TI lookup of the registry and the container ["ti"]; and
    [register_pivots] with the packaged file, the container ["other"] and
    the namespace it was given. *)
Theorem construction_call_sequence ns provs ts w w1 self :
  Pivot X ns provs ts w = (w1, Ok self) ->
  exists reg,
    registry_of w1 self = Some reg /\
    NoDup (map environment (data_provs (Dict.values reg))) /\
    trace w1 =
      trace w ++ ti_events ns provs ++
      map (fun prov =>
             add_data_queries_to_entities prov (bound_get_timespan self))
        (data_provs (Dict.values reg)) ++
      [add_ioc_queries_to_entities (Dict.get reg "TILookup") "ti";
       register_pivots
         (resource_filename X "msticpy" "resources/mp_pivot_reg.yaml")
         (Some "other") None None ns].
Proof.
  intros Hrun.
  pose proof (Pivot_pivot_at X _ _ _ _ _ _ Hrun) as Hp.
  apply Pivot_returns in Hrun as (_ & _ & _ & _ & Htr & Hnone).
  eexists. split; [apply (registry_of_pivot_at _ _ _ _ Hp)|]. split.
  - apply (sublist_NoDup _
             (Dict.keys (all_providers_into Dict.empty ns provs))).
    + apply NoDup_all_providers_into, NoDup_nil_2.
    + apply environments_sublist_keys.
      intros kv. apply keyed_all_providers_into.
  - rewrite Htr, (calls_made_all _ Hnone). reflexivity.
Qed.



(** *** [_get_provider_by_type] and empty sources *)

Lemma filter_nil_no_instance ty objs :
  List.filter (fun prov => isinstance prov ty) objs = [] ->
  no_instance_of ty objs = true.
Proof.
  induction objs as [|o objs IH]; simpl; [reflexivity|].
  destruct (isinstance o ty); [discriminate|]. exact IH.
Qed.

(** X12.  [_get_provider_by_type], for any type: it returns [None] exactly
    when neither the explicit list nor the namespace holds an instance of
    the type, and otherwise an instance of the type taken from one of
    them. *)
Theorem get_provider_by_type_spec ty ns provs :
  (_get_provider_by_type ty ns provs = None <->
   no_instance_of ty (default [] provs) = true /\
   no_instance_of ty (Dict.values (default Dict.empty ns)) = true) /\
  (forall o,
      _get_provider_by_type ty ns provs = Some o ->
      isinstance o ty = true /\
      (In o (default [] provs) \/
       In o (Dict.values (default Dict.empty ns)))).
Proof.
  split.
  - split; [|intros [Hp Hn]; apply get_provider_by_type_none; assumption].
    unfold _get_provider_by_type.
    set (f := fun prov => isinstance prov ty).
    assert (Hp : (if truthy_providers provs
                  then List.filter f (default [] provs) else []) = [] ->
                 no_instance_of ty (default [] provs) = true).
    { destruct provs as [[|p ps]|]; cbn [truthy_providers default];
        [reflexivity| |reflexivity].
      apply filter_nil_no_instance. }
    destruct (if truthy_providers provs
              then List.filter f (default [] provs) else [])
      as [|p ps]; [|discriminate].
    intros Hn. split; [apply Hp; reflexivity|].
    destruct (truthy_namespace ns) eqn:Ht.
    + destruct (List.filter f (Dict.values (default Dict.empty ns)))
        as [|o os] eqn:Hf.
      * apply filter_nil_no_instance, Hf.
      * apply last_None in Hn. discriminate.
    + destruct ns as [[|kv nsd]|]; try discriminate Ht; reflexivity.
  - intros o Ho. split.
    + apply (get_provider_by_type_isinstance _ _ _ _ Ho).
    + apply (get_provider_by_type_In _ _ _ _ Ho).
Qed.

(** X13.  An empty namespace and an empty provider list count as absent:
    the objects a construction builds are those it builds for [None]. *)
Theorem empty_sources_are_like_none ns provs ts w :
  heap (fst (Pivot X (Some Dict.empty) provs ts w))
  = heap (fst (Pivot X None provs ts w)) /\
  heap (fst (Pivot X ns (Some []) ts w))
  = heap (fst (Pivot X ns None ts w)).
Proof. rewrite !Pivot_run. split; reflexivity. Qed.
End Further.


(** ** The further properties at sample inputs *)

Lemma construction_with_timespan_witness :
  Pivot Sample.quiet (Some Sample.ns_ab) (Some Sample.provs_c)
    (Some Sample.span) Sample.w0 = (Sample.w_span, Ok 0) /\
  start Sample.quiet 0 Sample.w_span = (Sample.w_span, Ok 500%Z) /\
  end_ Sample.quiet 0 Sample.w_span = (Sample.w_span, Ok 900%Z) /\
  timespan Sample.quiet 0 Sample.w_span = (Sample.w_span, Ok Sample.span).
Proof.
  assert (Hrun :
    Pivot Sample.quiet (Some Sample.ns_ab) (Some Sample.provs_c)
      (Some Sample.span) Sample.w0 = (Sample.w_span, Ok 0)) by reflexivity.
  split; [exact Hrun|].
  apply (construction_with_timespan Sample.quiet _ _ _ _ _ _ Hrun).
Defined.

Lemma edit_query_time_with_timespan_witness :
  heap Sample.w_none !! 0
  = Some (PivotObj (Some (QueryTime.of_origin 1000000%Z 1%Z 0%Z "day"))
            (Some 1)) /\
  exists w',
    edit_query_time Sample.quiet 0 "hour" (Some Sample.span) Sample.w_none
    = (w', Ok tt) /\
    query_time_of w' 0 = Some (QueryTime.of_timespan Sample.span) /\
    timespan Sample.quiet 0 w' = (w', Ok Sample.span).
Proof.
  assert (Hs :
    heap Sample.w_none !! 0
    = Some (PivotObj (Some (QueryTime.of_origin 1000000%Z 1%Z 0%Z "day"))
              (Some 1))) by reflexivity.
  split; [exact Hs|].
  destruct (edit_query_time_with_timespan Sample.quiet _ _ _ _ "hour"
              Sample.span Hs) as (w' & Hrun & Hqt & _ & _ & _ & Hspan).
  exists w'. repeat split; assumption.
Defined.


Lemma default_window_is_anchored_witness :
  let w2 := run_ops Sample.quiet 0 Sample.reads Sample.w_none in
  Pivot Sample.quiet None None None Sample.w0 = (Sample.w_none, Ok 0) /\
  forallb keeps_query_time Sample.reads = true /\
  clock w2 = 1107200%Z /\
  start Sample.quiet 0 w2 = (w2, Ok (1000000 - 1 * 86400)%Z) /\
  end_ Sample.quiet 0 w2 = (w2, Ok 1000000%Z).
Proof.
  intros w2.
  assert (Hrun :
    Pivot Sample.quiet None None None Sample.w0 = (Sample.w_none, Ok 0))
    by reflexivity.
  split; [exact Hrun|]. split; [reflexivity|]. split; [reflexivity|].
  apply (default_window_is_anchored Sample.quiet _ _ _ _ _ Sample.reads w2
           Hrun eq_refl eq_refl).
Defined.

Lemma operations_keep_the_registry_witness :
  let w2 := run_ops Sample.quiet 0 Sample.ops Sample.w_both in
  Pivot Sample.quiet (Some Sample.ns_ab) (Some Sample.provs_c) None Sample.w0
  = (Sample.w_both, Ok 0) /\
  exists d m,
    providers 0 Sample.w_both = (Sample.w_both, Ok d) /\
    providers 0 w2 = (w2, Ok d) /\
    registry_of Sample.w_both 0 = Some m /\
    registry_of w2 0 = Some m.
Proof.
  intros w2.
  assert (Hrun :
    Pivot Sample.quiet (Some Sample.ns_ab) (Some Sample.provs_c) None Sample.w0
    = (Sample.w_both, Ok 0)) by reflexivity.
  split; [exact Hrun|].
  destruct (operations_keep_the_registry Sample.quiet _ _ _ _ _ _
              Sample.ops w2 Hrun eq_refl)
    as (d & m & H1 & H2 & H3 & H4 & _).
  exists d, m. repeat split; assumption.
Defined.

Lemma environments_are_independent_witness :
  let w2 := run_ops Sample.quiet 2 Sample.second_ops Sample.w_second in
  pivot_at Sample.w_none 0 1 [("TILookup", TI TILookup_default)] /\
  Pivot Sample.quiet (Some Sample.ns_ab) None (Some Sample.span) Sample.w_none
  = (Sample.w_second, Ok 2) /\
  timespan Sample.quiet 2 w2 = (w2, Ok (TimeSpan.new 1%Z 2%Z)) /\
  get_provider 2 "LogAnalytics" w2 = (w2, Ok (Some (QP Sample.qp_b))) /\
  get_provider 0 "LogAnalytics" w2 = (w2, Ok None) /\
  start Sample.quiet 0 w2 = (w2, Ok (1000000 - 1 * 86400)%Z) /\
  end_ Sample.quiet 0 w2 = (w2, Ok (1000000 + 0 * 86400)%Z).
Proof.
  intros w2.
  assert (Hs0 :
    heap Sample.w_none !! 0
    = Some (PivotObj (Some (QueryTime.of_origin 1000000%Z 1%Z 0%Z "day"))
              (Some 1))) by reflexivity.
  assert (Hd0 :
    heap Sample.w_none !! 1
    = Some (DictObj [("TILookup", TI TILookup_default)])) by reflexivity.
  assert (Hrun :
    Pivot Sample.quiet (Some Sample.ns_ab) None (Some Sample.span)
      Sample.w_none = (Sample.w_second, Ok 2)) by reflexivity.
  destruct (environments_are_independent Sample.quiet _ _ _ _ _ _ _ _ _ _
              Sample.second_ops w2 Hs0 Hd0 Hrun eq_refl)
    as (_ & _ & _ & Hget & Hstart & Hend & _).
  split; [split; [eexists; exact Hs0|exact Hd0]|].
  split; [exact Hrun|]. split; [reflexivity|]. split; [reflexivity|].
  split; [apply (Hget "LogAnalytics")|]. split; assumption.
Defined.

Lemma get_provider_None_iff_witness :
  Pivot Sample.quiet (Some Sample.ns_ab) (Some Sample.provs_c) None Sample.w0
  = (Sample.w_both, Ok 0) /\
  get_provider 0 "Splunk" Sample.w_both = (Sample.w_both, Ok None).
Proof.
  assert (Hrun :
    Pivot Sample.quiet (Some Sample.ns_ab) (Some Sample.provs_c) None Sample.w0
    = (Sample.w_both, Ok 0)) by reflexivity.
  split; [exact Hrun|].
  apply (get_provider_None_iff Sample.quiet _ _ _ _ _ _ "Splunk" Hrun).
  repeat split; first [discriminate|reflexivity].
Defined.

Lemma stored_providers_come_from_the_sources_witness :
  Pivot Sample.quiet (Some Sample.ns_ab) (Some Sample.provs_c) None Sample.w0
  = (Sample.w_both, Ok 0) /\
  get_provider 0 "LogAnalytics" Sample.w_both
  = (Sample.w_both, Ok (Some (QP Sample.qp_c))) /\
  exists q,
    QP Sample.qp_c = QP q /\ environment q = "LogAnalytics" /\
    (In (QP Sample.qp_c) Sample.provs_c \/
     In (QP Sample.qp_c) (Dict.values Sample.ns_ab)).
Proof.
  assert (Hrun :
    Pivot Sample.quiet (Some Sample.ns_ab) (Some Sample.provs_c) None Sample.w0
    = (Sample.w_both, Ok 0)) by reflexivity.
  assert (Hget :
    get_provider 0 "LogAnalytics" Sample.w_both
    = (Sample.w_both, Ok (Some (QP Sample.qp_c)))) by reflexivity.
  split; [exact Hrun|]. split; [exact Hget|].
  destruct (stored_providers_come_from_the_sources Sample.quiet
              _ _ _ _ _ _ _ _ Hrun Hget) as [[Hk _]|[_ Hq]];
    [discriminate Hk|exact Hq].
Defined.

Lemma data_queries_only_for_stored_providers_witness :
  Pivot Sample.quiet (Some Sample.ns_ab) (Some Sample.provs_c) None Sample.w0
  = (Sample.w_both, Ok 0) /\
  In (add_data_queries_to_entities Sample.qp_c (bound_get_timespan 0))
    (trace Sample.w_both) /\
  get_provider 0 (environment Sample.qp_c) Sample.w_both
  = (Sample.w_both, Ok (Some (QP Sample.qp_c))).
Proof.
  assert (Hrun :
    Pivot Sample.quiet (Some Sample.ns_ab) (Some Sample.provs_c) None Sample.w0
    = (Sample.w_both, Ok 0)) by reflexivity.
  assert (Hin :
    In (add_data_queries_to_entities Sample.qp_c (bound_get_timespan 0))
      (trace Sample.w_both)) by (left; reflexivity).
  split; [exact Hrun|]. split; [exact Hin|].
  apply (data_queries_only_for_stored_providers Sample.quiet
           _ _ _ _ _ _ (trace Sample.w_both) _ _ Hrun eq_refl Hin).
Defined.

Lemma construction_call_sequence_witness :
  Pivot Sample.quiet (Some Sample.ns_ab) (Some Sample.provs_c) None Sample.w0
  = (Sample.w_both, Ok 0) /\
  trace Sample.w_both =
    [add_data_queries_to_entities Sample.qp_c (bound_get_timespan 0);
     add_ioc_queries_to_entities (Some (TI Sample.ti_2)) "ti";
     register_pivots "msticpy/resources/mp_pivot_reg.yaml" (Some "other")
       None None (Some Sample.ns_ab)].
Proof.
  assert (Hrun :
    Pivot Sample.quiet (Some Sample.ns_ab) (Some Sample.provs_c) None Sample.w0
    = (Sample.w_both, Ok 0)) by reflexivity.
  split; [exact Hrun|].
  destruct (construction_call_sequence Sample.quiet _ _ _ _ _ _ Hrun)
    as (reg & Hreg & _ & Htr).
  rewrite Htr. injection Hreg as <-. reflexivity.
Defined.


Lemma get_provider_by_type_spec_witness :
  _get_provider_by_type TILookup_type (Some Sample.ns_x) (Some []) = None /\
  _get_provider_by_type QueryProvider_type (Some Sample.ns_ab)
    (Some Sample.provs_ti) = Some (QP Sample.qp_b) /\
  isinstance (QP Sample.qp_b) QueryProvider_type = true /\
  (In (QP Sample.qp_b) Sample.provs_ti \/
   In (QP Sample.qp_b) (Dict.values Sample.ns_ab)).
Proof.
  split.
  - apply (get_provider_by_type_spec TILookup_type (Some Sample.ns_x)
             (Some [])).
    split; reflexivity.
  - assert (Hsome :
      _get_provider_by_type QueryProvider_type (Some Sample.ns_ab)
        (Some Sample.provs_ti) = Some (QP Sample.qp_b)) by reflexivity.
    split; [exact Hsome|].
    apply (get_provider_by_type_spec QueryProvider_type (Some Sample.ns_ab)
             (Some Sample.provs_ti)), Hsome.
Defined.
